(** * The REST API server of Mixxx ([src/api/restapiserver.cpp])

    A shallow embedding of [mixxx::RestApiServer]: the request parser, the
    response builder, the router and the endpoint handlers, followed by the
    properties the specification states about them.

    Conventions of the embedding.
    - [QByteArray] is a sequence of 8-bit characters.  A [QString] is
      represented by the sequence of bytes of its text, so that
      [QString::toUtf8] is the identity; the decoders that Qt applies to
      untrusted bytes ([QString::fromUtf8], [QUrl::fromPercentEncoding]),
      Unicode case folding and the JSON reader and writer are interfaces
      of the [QtText] and [QtJson] classes below: the server code is
      verified for every implementation of them.
    - [QMap] is an ordered map, kept as a key-sorted association list, as
      the response builder iterates over it in key order.
    - The control plane ([ControlObject]) and the player registry
      ([PlayerInfo]) are collaborators outside this file of the source;
      they are interfaces too.
    - A handler is a transformer of the [World]: the client socket and the
      control store. *)

From Stdlib Require Import ZArith List Bool Lia.
From Stdlib Require Import Strings.Ascii Strings.String.
From Stdlib Require Import Numbers.DecimalString Numbers.DecimalZ.
From Stdlib Require Import Floats.PrimFloat.
Import ListNotations.

Set Warnings "-register-all".

Local Open Scope list_scope.
Local Open Scope string_scope.

(** ** Byte arrays and strings *)

Abbreviation QByteArray := string (only parsing).
Abbreviation QString := string (only parsing).

(** [QString::toUtf8]: strings are held as their bytes. *)
Definition toUtf8 (s : QString) : QByteArray := s.

(** The double quote, for the literals of the source that contain one. *)
Definition dquote : string := String (ascii_of_nat 34) "".

Definition LF : ascii := ascii_of_nat 10.
Definition CRLF : string := String (ascii_of_nat 13) (String (ascii_of_nat 10) "").

Module QBA.

(** [QByteArray::isEmpty] *)
Definition isEmpty (s : QByteArray) : bool :=
  match s with
  | EmptyString => true
  | String _ _ => false
  end.

(** [QByteArray::size] *)
Definition size (s : QByteArray) : Z := Z.of_nat (String.length s).

(** [QByteArray::split(sep)]: the fields between the occurrences of
    [sep]; empty fields are kept, and there is always at least one. *)
Fixpoint split (sep : ascii) (s : QByteArray) : list QByteArray :=
  match s with
  | EmptyString => [EmptyString]
  | String c s' =>
      if Ascii.eqb c sep then EmptyString :: split sep s'
      else match split sep s' with
           | [] => [String c EmptyString]
           | field :: fields => String c field :: fields
           end
  end.

(** [QByteArrayList::join(sep)] *)
Fixpoint join (sep : ascii) (l : list QByteArray) : QByteArray :=
  match l with
  | [] => EmptyString
  | [x] => x
  | x :: rest => x ++ String sep (join sep rest)
  end.

(** The C locale's [isspace]: tab, line feed, vertical tab, form feed,
    carriage return and space. *)
Definition isspace (c : ascii) : bool :=
  let n := nat_of_ascii c in
  ((9 <=? n) && (n <=? 13))%nat || (n =? 32)%nat.

Fixpoint trimFront (s : QByteArray) : QByteArray :=
  match s with
  | EmptyString => EmptyString
  | String c s' => if isspace c then trimFront s' else s
  end.

Fixpoint trimBack (s : QByteArray) : QByteArray :=
  match s with
  | EmptyString => EmptyString
  | String c s' =>
      match trimBack s' with
      | EmptyString => if isspace c then EmptyString else String c EmptyString
      | t => String c t
      end
  end.

(** [QByteArray::trimmed]: white space removed from both ends. *)
Definition trimmed (s : QByteArray) : QByteArray := trimBack (trimFront s).

(** [indexOf(c)]: the position of the first [c], or -1. *)
Fixpoint indexOf (c : ascii) (s : QByteArray) : Z :=
  match s with
  | EmptyString => (-1)%Z
  | String a s' =>
      if Ascii.eqb a c then 0%Z
      else let r := indexOf c s' in
           if (r <? 0)%Z then (-1)%Z else (r + 1)%Z
  end.

Fixpoint take (n : nat) (s : QByteArray) : QByteArray :=
  match n, s with
  | S n', String c s' => String c (take n' s')
  | _, _ => EmptyString
  end.

Fixpoint drop (n : nat) (s : QByteArray) : QByteArray :=
  match n, s with
  | S n', String _ s' => drop n' s'
  | _, _ => s
  end.

(** [left(len)]: the first [len] characters (all of them if there are
    fewer). *)
Definition left (len : Z) (s : QByteArray) : QByteArray := take (Z.to_nat len) s.

(** [mid(pos)]: the characters from position [pos] to the end. *)
Definition mid (pos : Z) (s : QByteArray) : QByteArray := drop (Z.to_nat pos) s.

(** [startsWith(c)] *)
Definition startsWith (c : ascii) (s : QByteArray) : bool :=
  match s with
  | String a _ => Ascii.eqb a c
  | EmptyString => false
  end.

(** [QByteArray::number] and [QString::number] of an integer: its
    decimal notation. *)
Definition number (n : Z) : QByteArray := NilZero.string_of_int (Z.to_int n).

End QBA.

(** [QString::split(sep, Qt::SkipEmptyParts)] *)
Definition splitSkipEmptyParts (sep : ascii) (s : QString) : list QString :=
  filter (fun part => negb (QBA.isEmpty part)) (QBA.split sep s).

(** ** Ordered maps with string keys ([QMap<QString, V>]) *)

Module QMap.

Definition t (V : Type) : Type := list (QString * V).

Definition empty {V} : t V := [].

(** [m[k] = v]: the entry is replaced if the key is present, and put at
    its place in key order otherwise. *)
Fixpoint insert {V} (k : QString) (v : V) (m : t V) : t V :=
  match m with
  | [] => [(k, v)]
  | (k', v') :: m' =>
      match String.compare k k' with
      | Lt => (k, v) :: (k', v') :: m'
      | Eq => (k, v) :: m'
      | Gt => (k', v') :: insert k v m'
      end
  end.

Fixpoint lookup {V} (k : QString) (m : t V) : option V :=
  match m with
  | [] => None
  | (k', v') :: m' => if String.eqb k k' then Some v' else lookup k m'
  end.

Definition contains {V} (k : QString) (m : t V) : bool :=
  match lookup k m with
  | Some _ => true
  | None => false
  end.

Definition isEmpty {V} (m : t V) : bool :=
  match m with
  | [] => true
  | _ :: _ => false
  end.

Definition size {V} (m : t V) : nat := List.length m.

Definition keys {V} (m : t V) : list QString := map fst m.

End QMap.

(** ** JSON values ([QJsonValue], [QJsonObject], [QJsonDocument]) *)

Inductive QJsonValue : Type :=
| JNull
| JBool (b : bool)
| JDouble (d : float)
| JString (s : QString)
| JArray (a : list QJsonValue)
| JObject (o : list (QString * QJsonValue)).

Definition QJsonObject : Type := QMap.t QJsonValue.
Definition QJsonArray : Type := list QJsonValue.

(** [QJsonValue::toDouble()]: the number, and 0 for any other value. *)
Definition toDouble (v : QJsonValue) : float :=
  match v with
  | JDouble d => d
  | _ => 0%float
  end.

Definition isDouble (v : QJsonValue) : bool :=
  match v with
  | JDouble _ => true
  | _ => false
  end.

(** What [QJsonDocument::fromJson] returns: a null document when the text
    is not JSON, otherwise an array or an object. *)
Inductive QJsonDocument : Type :=
| DocNull
| DocArray (a : QJsonArray)
| DocObject (o : QJsonObject).

Definition isObject (doc : QJsonDocument) : bool :=
  match doc with
  | DocObject _ => true
  | _ => false
  end.

(** [QJsonDocument::object()]: the empty object when the document is not
    an object. *)
Definition object (doc : QJsonDocument) : QJsonObject :=
  match doc with
  | DocObject o => o
  | _ => QMap.empty
  end.

(** [QJsonObject::operator[]] on a non-const object, read: the value of
    the key, a null value when there is none. *)
Definition valueOf (o : QJsonObject) (k : QString) : QJsonValue :=
  match QMap.lookup k o with
  | Some v => v
  | None => JNull
  end.

(** ** The interfaces of Qt that the server calls *)

Class QtText : Type := {
  (** [QString::fromUtf8] *)
  fromUtf8 : QByteArray -> QString;
  (** [QString::toLower] *)
  toLower : QString -> QString;
  (** [QUrl::fromPercentEncoding] *)
  fromPercentEncoding : QByteArray -> QString
}.

Class QtJson : Type := {
  (** [QJsonDocument(json).toJson()] *)
  toJson : QJsonObject -> QByteArray;
  (** [QJsonDocument::fromJson] *)
  fromJson : QByteArray -> QJsonDocument
}.


(** ** Checked indexing

    [QList::operator[]] must be called with an index inside the list.  The
    parser is written in the [option] monad: an index out of range is
    [None], so that a result [Some request] says that every access of the
    run was in range. *)

Definition at_index {A} (l : list A) (i : nat) : option A := nth_error l i.

(** [QList::isEmpty] *)
Definition isEmptyList {A} (l : list A) : bool :=
  match l with
  | [] => true
  | _ :: _ => false
  end.

Notation "'let?' x ':=' c 'in' k" :=
  (match c with
   | Some x => k
   | None => None
   end)
  (at level 10, x pattern, c at level 100, k at level 200).

(** ** Requests and the request parser *)

Record HttpRequest : Type := {
  method : QString;
  path : QString;
  headers : QMap.t QString;
  body : QByteArray
}.

(** A default-constructed [HttpRequest]. *)
Definition emptyRequest : HttpRequest :=
  {| method := ""; path := ""; headers := QMap.empty; body := "" |}.

Section Parser.

Context `{QtText}.

(** The body of the header loop for a line that is not empty once
    trimmed: a line with a colon after its first character adds or
    replaces a header, any other line is skipped. *)
Definition parseHeaderLine (line : QByteArray) (hdrs : QMap.t QString) : QMap.t QString :=
  let colonIndex := QBA.indexOf ":" line in
  if (0 <? colonIndex)%Z then
    let key := fromUtf8 (QBA.trimmed (QBA.left colonIndex line)) in
    let value := fromUtf8 (QBA.trimmed (QBA.mid (colonIndex + 1) line)) in
    QMap.insert (toLower key) value hdrs
  else hdrs.

(** [for (int i = 1; i < lines.size(); ++i)]: [remaining] is
    [lines.size() - i], the number of iterations left.  The result is
    [headerEndIndex] and the headers. *)
Fixpoint headerLoop (lines : list QByteArray) (remaining i : nat)
    (headerEndIndex : nat) (hdrs : QMap.t QString)
    : option (nat * QMap.t QString) :=
  match remaining with
  | O => Some (headerEndIndex, hdrs)
  | S remaining' =>
      let? l := at_index lines i in
      let line := QBA.trimmed l in
      if QBA.isEmpty line then Some (i + 1, hdrs)%nat
      else headerLoop lines remaining' (i + 1) headerEndIndex (parseHeaderLine line hdrs)
  end.

Definition parseHttpRequest (data : QByteArray) : option HttpRequest :=
  let request := emptyRequest in
  let lines := QBA.split LF data in
  if isEmptyList lines then Some request
  else
    let? line0 := at_index lines 0 in
    let requestLine := QBA.split " " (QBA.trimmed line0) in
    let? request :=
      if (2 <=? List.length requestLine)%nat then
        let? token0 := at_index requestLine 0 in
        let? token1 := at_index requestLine 1 in
        Some {| method := fromUtf8 token0; path := fromUtf8 token1;
                headers := headers request; body := body request |}
      else Some request
    in
    let? (headerEndIndex, hdrs) :=
      headerLoop lines (List.length lines - 1) 1 1 (headers request) in
    let request :=
      {| method := method request; path := path request;
         headers := hdrs; body := body request |} in
    if (headerEndIndex <? List.length lines)%nat then
      Some {| method := method request; path := path request;
              headers := headers request;
              body := QBA.join LF (skipn headerEndIndex lines) |}
    else Some request.

(** *** Notions to state what the parser does *)

(** A line is blank when nothing is left of it once trimmed; this is the
    test of the header loop, so that the line [\r] that ends the header
    block of an HTTP request is blank. *)
Definition blank (line : QByteArray) : Prop := QBA.trimmed line = "".

(** The headers collected from the lines of a header block. *)
Definition headersOf (hdrLines : list QByteArray) (hdrs : QMap.t QString)
    : QMap.t QString :=
  fold_left (fun h l => parseHeaderLine (QBA.trimmed l) h) hdrLines hdrs.

(** The method and the path that the request line gives. *)
Definition requestLineOf (line0 : QByteArray) : QString * QString :=
  match QBA.split " " (QBA.trimmed line0) with
  | token0 :: token1 :: _ => (fromUtf8 token0, fromUtf8 token1)
  | _ => ("", "")
  end.

End Parser.

(** ** Responses, sockets and the response builder *)

Record HttpResponse : Type := {
  statusCode : Z;
  statusText : QString;
  responseHeaders : QMap.t QString;
  responseBody : QByteArray
}.

(** The state of a [QTcpSocket] that the server acts on: whether it can be
    written to, the byte arrays written so far, and whether
    [disconnectFromHost] was called. *)
Record QTcpSocket : Type := {
  isWritable : bool;
  written : list QByteArray;
  disconnectRequested : bool
}.

(** The local map [headers] of [sendHttpResponse] once it is complete. *)
Definition outgoingHeaders (response : HttpResponse) : QMap.t QString :=
  let headers := responseHeaders response in
  let headers :=
    QMap.insert "Content-Length" (QBA.number (QBA.size (responseBody response))) headers in
  let headers :=
    if negb (QMap.contains "Content-Type" headers)
    then QMap.insert "Content-Type" "application/json" headers
    else headers in
  let headers := QMap.insert "Access-Control-Allow-Origin" "*" headers in
  let headers := QMap.insert "Access-Control-Allow-Methods" "GET, POST, OPTIONS" headers in
  let headers := QMap.insert "Access-Control-Allow-Headers" "Content-Type" headers in
  headers.

Definition headerLine (entry : QString * QString) : QByteArray :=
  toUtf8 (fst entry) ++ ": " ++ toUtf8 (snd entry) ++ CRLF.

(** The byte array [responseData] of [sendHttpResponse]: status line,
    headers in key order, an empty line, body. *)
Definition responseData (response : HttpResponse) : QByteArray :=
  "HTTP/1.1 " ++ QBA.number (statusCode response) ++ " "
    ++ toUtf8 (statusText response) ++ CRLF
    ++ String.concat "" (map headerLine (outgoingHeaders response))
    ++ CRLF
    ++ responseBody response.

(** The socket is a pointer: [None] is the null pointer. *)
Definition sendHttpResponse (socket : option QTcpSocket) (response : HttpResponse)
    : option QTcpSocket :=
  match socket with
  | None => None
  | Some s =>
      if negb (isWritable s) then Some s
      else Some {| isWritable := isWritable s;
                   written := (written s ++ [responseData response])%list;
                   disconnectRequested := true |}
  end.

(** ** The control plane and the player registry *)

Record ConfigKey : Type := {
  group : QString;
  item : QString
}.

(** [ControlObject::getControl], [ControlObject::get] and
    [ControlObject::set], over the state [Store] of the controls. *)
Class ControlPlane (Store : Type) : Type := {
  ControlObject : Type;
  getControl : Store -> ConfigKey -> option ControlObject;
  get : Store -> ControlObject -> float;
  set : ControlObject -> float -> Store -> Store
}.

(** The accessors of [Track] that the server reads. *)
Record Track : Type := {
  getArtist : QString;
  getTitle : QString;
  getAlbum : QString;
  getAlbumArtist : QString;
  getGenre : QString;
  getComposer : QString;
  getYear : QString;
  getComment : QString;
  getDuration : float;
  getBpm : float;
  getKeyText : QString;
  getLocation : QString;
  getType : QString
}.

(** A [TrackPointer] may be null. *)
Definition TrackPointer : Type := option Track.

(** What the server reads of [PlayerInfo::instance()]. *)
Record PlayerInfo : Type := {
  getTrackInfo : QString -> TrackPointer;
  getLoadedTracks : QMap.t TrackPointer
}.

(** ** Status objects *)

Definition getTrackMetadata (track : option Track) : QJsonObject :=
  match track with
  | None => QMap.empty
  | Some track =>
      let json := QMap.empty in
      let json := QMap.insert "artist" (JString (getArtist track)) json in
      let json := QMap.insert "title" (JString (getTitle track)) json in
      let json := QMap.insert "album" (JString (getAlbum track)) json in
      let json := QMap.insert "album_artist" (JString (getAlbumArtist track)) json in
      let json := QMap.insert "genre" (JString (getGenre track)) json in
      let json := QMap.insert "composer" (JString (getComposer track)) json in
      let json := QMap.insert "year" (JString (getYear track)) json in
      let json := QMap.insert "comment" (JString (getComment track)) json in
      let json := QMap.insert "duration" (JDouble (getDuration track)) json in
      let json := QMap.insert "bpm" (JDouble (getBpm track)) json in
      let json := QMap.insert "key" (JString (getKeyText track)) json in
      let json := QMap.insert "location" (JString (getLocation track)) json in
      let json := QMap.insert "file_type" (JString (getType track)) json in
      json
  end.

Section Status.

Context {Store : Type} `{ControlPlane Store}.
Variable players : PlayerInfo.
Variable controls : Store.

(** The lambda [getControlValue] of [getAllPlayersStatus]; the one of
    [getPlayerStatus] is this one with its group captured. *)
Definition getControlValue (group item : QString) : QJsonValue :=
  match getControl controls {| group := group; item := item |} with
  | Some pControl => JDouble (get controls pControl)
  | None => JNull
  end.

Definition getPlayerStatus (group : QString) : QJsonObject :=
  let json := QMap.empty in
  let pTrack := getTrackInfo players group in
  let json :=
    match pTrack with
    | Some track => QMap.insert "track" (JObject (getTrackMetadata (Some track))) json
    | None => QMap.insert "track" JNull json
    end in
  let getControlValue := getControlValue group in
  let json := QMap.insert "play" (getControlValue "play") json in
  let json := QMap.insert "play_indicator" (getControlValue "play_indicator") json in
  let json := QMap.insert "playposition" (getControlValue "playposition") json in
  let json := QMap.insert "duration" (getControlValue "duration") json in
  let json := QMap.insert "volume" (getControlValue "volume") json in
  let json := QMap.insert "pregain" (getControlValue "pregain") json in
  let json := QMap.insert "bpm" (getControlValue "bpm") json in
  let json := QMap.insert "rate" (getControlValue "rate") json in
  let json := QMap.insert "tempo_ratio" (getControlValue "tempo_ratio") json in
  let json := QMap.insert "keylock" (getControlValue "keylock") json in
  let json := QMap.insert "repeat" (getControlValue "repeat") json in
  let json := QMap.insert "loop_enabled" (getControlValue "loop_enabled") json in
  let json := QMap.insert "track_loaded" (getControlValue "track_loaded") json in
  json.

(** The loop over [loadedTracks] of [getAllPlayersStatus]: one status
    object is appended for each entry. *)
Definition appendPlayer (players : QJsonArray) (entry : QString * TrackPointer)
    : QJsonArray :=
  let group := fst entry in
  let playerJson := getPlayerStatus group in
  let playerJson := QMap.insert "group" (JString group) playerJson in
  (players ++ [JObject playerJson])%list.

Definition getAllPlayersStatus : QJsonObject :=
  let json := QMap.empty in
  let loadedTracks := getLoadedTracks players in
  let players := fold_left appendPlayer loadedTracks [] in
  let json := QMap.insert "players" (JArray players) json in
  let master := QMap.empty in
  let master := QMap.insert "volume" (getControlValue "[Master]" "volume") master in
  let master := QMap.insert "balance" (getControlValue "[Master]" "balance") master in
  let master := QMap.insert "headVolume" (getControlValue "[Master]" "headVolume") master in
  let master := QMap.insert "headMix" (getControlValue "[Master]" "headMix") master in
  let json := QMap.insert "master" (JObject master) json in
  json.

End Status.

(** ** Endpoint handlers and the router *)

(** What a request acts on: the client socket and the control store. *)
Record World (Store : Type) : Type := {
  socket : option QTcpSocket;
  controls : Store
}.

Arguments socket {Store} _.
Arguments controls {Store} _.

(** The statement [sendHttpResponse(socket, response)] of a handler. *)
Definition respond {Store : Type} (response : HttpResponse) (w : World Store)
    : World Store :=
  {| socket := sendHttpResponse (socket w) response; controls := controls w |}.

(** The message of the 400 response to a body that is not a JSON object;
    the literal of the source has two double quotes in it. *)
Definition invalidJsonBody : QString :=
  "Invalid JSON body. Expected {" ++ dquote ++ "value" ++ dquote ++ ": <number>}".

(** The query string is cut from the last part of the path only. *)
Definition stripQuery (lastPart : QString) : QString :=
  let queryIndex := QBA.indexOf "?" lastPart in
  if (0 <=? queryIndex)%Z then QBA.left queryIndex lastPart else lastPart.

Fixpoint updateLast {A} (f : A -> A) (l : list A) : list A :=
  match l with
  | [] => []
  | [x] => [f x]
  | x :: l' => x :: updateLast f l'
  end.

(** [pathParts] as [handleRequest] routes on it. *)
Definition pathPartsOf (path : QString) : list QString :=
  let pathParts := splitSkipEmptyParts "/" path in
  if negb (isEmptyList pathParts) then updateLast stripQuery pathParts
  else pathParts.

Section Server.

Context `{QtText} `{QtJson} {Store : Type} `{ControlPlane Store}.
Variable players : PlayerInfo.

Definition handleGetStatus (request : HttpRequest) (w : World Store) : World Store :=
  let json := getAllPlayersStatus players (controls w) in
  respond {| statusCode := 200; statusText := "OK";
             responseHeaders := QMap.empty;
             responseBody := toJson json |} w.

Definition handleGetPlayer (group : QString) (w : World Store) : World Store :=
  let json := getPlayerStatus players (controls w) group in
  if QMap.isEmpty json then
    let errorJson := QMap.empty in
    let errorJson := QMap.insert "error" (JString "Player not found") errorJson in
    let errorJson := QMap.insert "group" (JString group) errorJson in
    respond {| statusCode := 404; statusText := "Not Found";
               responseHeaders := QMap.empty;
               responseBody := toJson errorJson |} w
  else
    respond {| statusCode := 200; statusText := "OK";
               responseHeaders := QMap.empty;
               responseBody := toJson json |} w.

Definition handleGetControl (group item : QString) (w : World Store) : World Store :=
  match getControl (controls w) {| group := group; item := item |} with
  | None =>
      let json := QMap.empty in
      let json := QMap.insert "error" (JString "Control not found") json in
      let json := QMap.insert "group" (JString group) json in
      let json := QMap.insert "item" (JString item) json in
      respond {| statusCode := 404; statusText := "Not Found";
                 responseHeaders := QMap.empty;
                 responseBody := toJson json |} w
  | Some pControl =>
      let json := QMap.empty in
      let json := QMap.insert "group" (JString group) json in
      let json := QMap.insert "item" (JString item) json in
      let json := QMap.insert "value" (JDouble (get (controls w) pControl)) json in
      respond {| statusCode := 200; statusText := "OK";
                 responseHeaders := QMap.empty;
                 responseBody := toJson json |} w
  end.

Definition handleSetControl (group item : QString) (body : QByteArray)
    (w : World Store) : World Store :=
  let doc := fromJson body in
  if negb (isObject doc) then
    let json := QMap.empty in
    let json := QMap.insert "error" (JString invalidJsonBody) json in
    respond {| statusCode := 400; statusText := "Bad Request";
               responseHeaders := QMap.empty;
               responseBody := toJson json |} w
  else
    let requestJson := object doc in
    if negb (QMap.contains "value" requestJson) then
      let json := QMap.empty in
      let json :=
        QMap.insert "error" (JString "Missing 'value' field in request body") json in
      respond {| statusCode := 400; statusText := "Bad Request";
                 responseHeaders := QMap.empty;
                 responseBody := toJson json |} w
    else
      let value := toDouble (valueOf requestJson "value") in
      match getControl (controls w) {| group := group; item := item |} with
      | None =>
          let json := QMap.empty in
          let json := QMap.insert "error" (JString "Control not found") json in
          let json := QMap.insert "group" (JString group) json in
          let json := QMap.insert "item" (JString item) json in
          respond {| statusCode := 404; statusText := "Not Found";
                     responseHeaders := QMap.empty;
                     responseBody := toJson json |} w
      | Some pControl =>
          (* pControl->set(value) *)
          let w := {| socket := socket w;
                      controls := set pControl value (controls w) |} in
          let json := QMap.empty in
          let json := QMap.insert "success" (JBool true) json in
          let json := QMap.insert "group" (JString group) json in
          let json := QMap.insert "item" (JString item) json in
          let json := QMap.insert "value" (JDouble (get (controls w) pControl)) json in
          respond {| statusCode := 200; statusText := "OK";
                     responseHeaders := QMap.empty;
                     responseBody := toJson json |} w
      end.

(** [None] is an access to [pathParts] outside its range. *)
Definition handleRequest (request : HttpRequest) (w : World Store)
    : option (World Store) :=
  if String.eqb (method request) "OPTIONS" then
    Some (respond {| statusCode := 204; statusText := "No Content";
                     responseHeaders := QMap.empty;
                     responseBody := "" |} w)
  else
    let pathParts := splitSkipEmptyParts "/" (path request) in
    let pathParts :=
      if negb (isEmptyList pathParts) then updateLast stripQuery pathParts
      else pathParts in
    let? outsideApi :=
      if isEmptyList pathParts then Some true
      else let? part0 := at_index pathParts 0 in
           Some (negb (String.eqb part0 "api")) in
    if (outsideApi : bool) then
      let json := QMap.empty in
      let json := QMap.insert "error" (JString "Not Found") json in
      let json := QMap.insert "message" (JString "API endpoints are under /api") json in
      Some (respond {| statusCode := 404; statusText := "Not Found";
                       responseHeaders := QMap.empty;
                       responseBody := toJson json |} w)
    else if (List.length pathParts <? 2)%nat then
      let json := QMap.empty in
      let json := QMap.insert "error" (JString "Bad Request") json in
      Some (respond {| statusCode := 400; statusText := "Bad Request";
                       responseHeaders := QMap.empty;
                       responseBody := toJson json |} w)
    else
      let? endpoint := at_index pathParts 1 in
      if String.eqb endpoint "status" && String.eqb (method request) "GET" then
        Some (handleGetStatus request w)
      else if String.eqb endpoint "player" && (3 <=? List.length pathParts)%nat
              && String.eqb (method request) "GET" then
        let? part2 := at_index pathParts 2 in
        let group := fromPercentEncoding (toUtf8 part2) in
        let group :=
          if negb (QBA.startsWith "[" group) then "[" ++ group ++ "]" else group in
        Some (handleGetPlayer group w)
      else if String.eqb endpoint "control" && (4 <=? List.length pathParts)%nat then
        let? part2 := at_index pathParts 2 in
        let group := fromPercentEncoding (toUtf8 part2) in
        let? part3 := at_index pathParts 3 in
        let item := fromPercentEncoding (toUtf8 part3) in
        let group :=
          if negb (QBA.startsWith "[" group) then "[" ++ group ++ "]" else group in
        if String.eqb (method request) "GET" then
          Some (handleGetControl group item w)
        else if String.eqb (method request) "POST" then
          Some (handleSetControl group item (body request) w)
        else
          let json := QMap.empty in
          let json := QMap.insert "error" (JString "Method Not Allowed") json in
          Some (respond {| statusCode := 405; statusText := "Method Not Allowed";
                           responseHeaders := QMap.empty;
                           responseBody := toJson json |} w)
      else
        let json := QMap.empty in
        let json := QMap.insert "error" (JString "Endpoint not found") json in
        Some (respond {| statusCode := 404; statusText := "Not Found";
                         responseHeaders := QMap.empty;
                         responseBody := toJson json |} w).

(** [handleClientData], where [data] is what [socket->readAll()]
    returns: nothing is done without a socket or for an empty read. *)
Definition handleClientData (data : QByteArray) (w : World Store)
    : option (World Store) :=
  match socket w with
  | None => Some w
  | Some _ =>
      if QBA.isEmpty data then Some w
      else
        let? request := parseHttpRequest data in
        handleRequest request w
  end.

End Server.

(** ** The listener

    [start], [stop], [isRunning] and [port] act on whether the
    [QTcpServer] listens and on [m_port].  What
    [m_pServer->listen(QHostAddress::LocalHost, port)] does is the
    environment's: [start] takes it as [bound], the port that
    [serverPort()] reports once the listen has succeeded, or [None] when
    the listen fails. *)

Record RestApiServer : Type := {
  isListening : bool;
  m_port : Z
}.

(** The constructor: the server does not listen and [m_port] is 0. *)
Definition newRestApiServer : RestApiServer :=
  {| isListening := false; m_port := 0 |}.

Definition start (port : Z) (bound : option Z) (server : RestApiServer)
    : bool * RestApiServer :=
  if isListening server then (false, server)
  else
    match bound with
    | None => (false, server)
    | Some serverPort =>
        (true, {| isListening := true; m_port := serverPort |})
    end.

Definition stop (server : RestApiServer) : RestApiServer :=
  if isListening server
  then {| isListening := false; m_port := m_port server |}
  else server.

Definition isRunning (server : RestApiServer) : bool := isListening server.

Definition port (server : RestApiServer) : Z := m_port server.



(** ** Notions to state what the router and the parser do *)

(** The five answers that the server gives. *)
Definition knownStatus (response : HttpResponse) : Prop :=
  In (statusCode response, statusText response)
     [(200%Z, "OK"); (204%Z, "No Content"); (400%Z, "Bad Request");
      (404%Z, "Not Found"); (405%Z, "Method Not Allowed")].

(** The 404 of a path that is not under [/api]. *)
Definition notUnderApi `{QtJson} : HttpResponse :=
  {| statusCode := 404; statusText := "Not Found";
     responseHeaders := QMap.empty;
     responseBody :=
       toJson [("error", JString "Not Found");
               ("message", JString "API endpoints are under /api")] |}.

(** The 404 of a path under [/api] that no endpoint takes. *)
Definition endpointNotFound `{QtJson} : HttpResponse :=
  {| statusCode := 404; statusText := "Not Found";
     responseHeaders := QMap.empty;
     responseBody := toJson [("error", JString "Endpoint not found")] |}.

Section HeaderNotions.

Context `{QtText}.

(** The header that a line of the header block gives, if it gives one:
    the line, trimmed, must have a colon after its first character. *)
Definition headerEntry (l : QByteArray) : option (QString * QString) :=
  let line := QBA.trimmed l in
  let colonIndex := QBA.indexOf ":" line in
  if (0 <? colonIndex)%Z then
    Some (toLower (fromUtf8 (QBA.trimmed (QBA.left colonIndex line))),
          fromUtf8 (QBA.trimmed (QBA.mid (colonIndex + 1) line)))
  else None.

(** The value that the last line giving the header [key] gives, after
    [before]. *)
Definition lastValue (key : QString) (hdrLines : list QByteArray)
    (before : option QString) : option QString :=
  fold_left
    (fun found l =>
       match headerEntry l with
       | Some (k, v) => if String.eqb key k then Some v else found
       | None => found
       end)
    hdrLines before.

End HeaderNotions.

(** ** The normalisation of group names, in the words of the specification

    "If the decoded group does not start with [[], it is wrapped as
    [[<group>]] before lookup." *)
Definition bracketed (decodedGroup : QString) : QString :=
  if QBA.startsWith "[" decodedGroup then decodedGroup
  else "[" ++ decodedGroup ++ "]".

(** The number that a decimal header value denotes. *)
Definition readNumber (text : QString) : option Z :=
  option_map Z.of_int (NilZero.int_of_string text).

(** The bytes of a response hold the line of a header. *)
Definition carriesHeader (response : HttpResponse) (key value : QString) : Prop :=
  exists before after,
    responseData response
    = "HTTP/1.1 " ++ QBA.number (statusCode response) ++ " "
        ++ toUtf8 (statusText response) ++ CRLF
        ++ before ++ (key ++ ": " ++ value ++ CRLF) ++ after
        ++ CRLF ++ responseBody response.

(** A world transformer that is one call of [sendHttpResponse], with a
    response that has no header of its own, after the store has been
    acted on. *)
Definition respondsOnce {Store : Type} (w w' : World Store) : Prop :=
  exists response after,
    w' = respond response {| socket := socket w; controls := after |}
    /\ responseHeaders response = QMap.empty.

(** A response is sent with a header: the header is in the map that the
    response builder writes out, and its line is in the bytes. *)
Definition sentWith (response : HttpResponse) (key value : QString) : Prop :=
  QMap.lookup key (outgoingHeaders response) = Some value
  /\ carriesHeader response key value.

(** ** Implementations of the interfaces, to run the server on examples *)

Module Doubles.

(** Text that is plain ASCII without percent signs decodes to itself. *)
Definition plainText : QtText :=
  {| fromUtf8 := fun bytes => bytes;
     toLower := fun s => s;
     fromPercentEncoding := fun bytes => bytes |}.

Definition valueBody (literal : string) : QByteArray :=
  "{" ++ dquote ++ "value" ++ dquote ++ ": " ++ literal ++ "}".

(** A JSON reader that knows a few bodies, and a writer that lists the
    keys of the object. *)
Definition fewBodies (body : QByteArray) : QJsonDocument :=
  if String.eqb body "{}" then DocObject QMap.empty
  else if String.eqb body (valueBody "0.5")
  then DocObject (QMap.insert "value" (JDouble 0.5) QMap.empty)
  else if String.eqb body (valueBody "2")
  then DocObject (QMap.insert "value" (JDouble 2) QMap.empty)
  else if String.eqb body (valueBody "true")
  then DocObject (QMap.insert "value" (JBool true) QMap.empty)
  else if String.eqb body "[1]" then DocArray [JDouble 1]
  else DocNull.

Definition keysOnly : QtJson :=
  {| toJson := fun json => "{" ++ String.concat "," (QMap.keys json) ++ "}";
     fromJson := fewBodies |}.

Definition sameKey (a b : ConfigKey) : bool :=
  String.eqb (group a) (group b) && String.eqb (item a) (item b).

(** A control store whose controls keep their value between 0 and 1. *)
Definition Controls : Type := list (ConfigKey * float).

Fixpoint valueAt (store : Controls) (key : ConfigKey) : option float :=
  match store with
  | [] => None
  | (k, v) :: store' => if sameKey key k then Some v else valueAt store' key
  end.

Definition clamp (v : float) : float :=
  if PrimFloat.ltb v 0 then 0%float
  else if PrimFloat.ltb 1 v then 1%float
  else v.

Fixpoint assign (key : ConfigKey) (v : float) (store : Controls) : Controls :=
  match store with
  | [] => []
  | (k, old) :: store' =>
      if sameKey key k then (k, clamp v) :: store'
      else (k, old) :: assign key v store'
  end.

Definition clamping : ControlPlane Controls :=
  {| ControlObject := ConfigKey;
     getControl := fun store key =>
       match valueAt store key with
       | Some _ => Some key
       | None => None
       end;
     get := fun store key =>
       match valueAt store key with
       | Some v => v
       | None => 0%float
       end;
     set := assign |}.

Definition channel1Volume : ConfigKey :=
  {| group := "[Channel1]"; item := "volume" |}.

Definition oneControl : Controls := [(channel1Volume, 0.25%float)].

Definition noControls : Controls := [].

Definition noPlayers : PlayerInfo :=
  {| getTrackInfo := fun _ => None; getLoadedTracks := QMap.empty |}.

Definition someTrack : Track :=
  {| getArtist := "Artist"; getTitle := "Title"; getAlbum := "Album";
     getAlbumArtist := "Artist"; getGenre := "House"; getComposer := "";
     getYear := "2020"; getComment := ""; getDuration := 240%float;
     getBpm := 124%float; getKeyText := "Am"; getLocation := "/music/a.mp3";
     getType := "mp3" |}.

Definition twoPlayers : PlayerInfo :=
  {| getTrackInfo := fun group =>
       if String.eqb group "[Channel1]" then Some someTrack
       else if String.eqb group "[Channel2]" then Some someTrack
       else None;
     getLoadedTracks :=
       QMap.insert "[Channel2]" (Some someTrack)
         (QMap.insert "[Channel1]" (Some someTrack) QMap.empty) |}.

Definition openSocket : QTcpSocket :=
  {| isWritable := true; written := []; disconnectRequested := false |}.

Definition world (store : Controls) : World Controls :=
  {| socket := Some openSocket; controls := store |}.

Definition request (m p : QString) (b : QByteArray) : HttpRequest :=
  {| method := m; path := p; headers := QMap.empty; body := b |}.

End Doubles.

(** * Properties *)

(** ** Ordered maps *)

Module QMapFacts.

Lemma compare_Gt_neq (k k' : QString) : String.compare k k' = Gt -> String.eqb k k' = false.
Proof.
  intros Hgt. apply String.eqb_neq. intros ->.
  pose proof (String.compare_antisym k' k') as Ha.
  rewrite Hgt in Ha. discriminate.
Qed.

Lemma lookup_insert {V} (k : QString) (v : V) (m : QMap.t V) :
  QMap.lookup k (QMap.insert k v m) = Some v.
Proof.
  induction m as [|[k' v'] m IH]; simpl.
  - now rewrite String.eqb_refl.
  - destruct (String.compare k k') eqn:Hc; simpl.
    + now rewrite String.eqb_refl.
    + now rewrite String.eqb_refl.
    + now rewrite (compare_Gt_neq _ _ Hc).
Qed.

Lemma lookup_insert_ne {V} (k k2 : QString) (v : V) (m : QMap.t V) :
  k <> k2 -> QMap.lookup k (QMap.insert k2 v m) = QMap.lookup k m.
Proof.
  intros Hne. apply String.eqb_neq in Hne.
  induction m as [|[k' v'] m IH]; simpl.
  - now rewrite Hne.
  - destruct (String.compare k2 k') eqn:Hc; simpl.
    + apply String.compare_eq_iff in Hc. subst k'. now rewrite Hne.
    + now rewrite Hne.
    + destruct (String.eqb k k'); [reflexivity | exact IH].
Qed.

Lemma insert_not_empty {V} (k : QString) (v : V) (m : QMap.t V) :
  QMap.isEmpty (QMap.insert k v m) = false.
Proof.
  destruct m as [|[k' v'] m]; simpl; [reflexivity|].
  destruct (String.compare k k'); reflexivity.
Qed.

Lemma lookup_In {V} (k : QString) (v : V) (m : QMap.t V) :
  QMap.lookup k m = Some v -> In (k, v) m.
Proof.
  induction m as [|[k' v'] m IH]; simpl; [discriminate|].
  destruct (String.eqb k k') eqn:He.
  - apply String.eqb_eq in He. subst k'. intros [= ->]. now left.
  - intros Hl. right. now apply IH.
Qed.

End QMapFacts.

(** ** Byte arrays *)

Module QBAFacts.

Lemma split_not_nil (sep : ascii) (s : QByteArray) : QBA.split sep s <> [].
Proof.
  destruct s as [|c s]; simpl; [discriminate|].
  destruct (Ascii.eqb c sep); [discriminate|].
  destruct (QBA.split sep s); discriminate.
Qed.

(** Splitting loses nothing: joining the fields with the separator gives
    the array back. *)
Lemma join_split (sep : ascii) (s : QByteArray) : QBA.join sep (QBA.split sep s) = s.
Proof.
  induction s as [|c s IH]; [reflexivity|].
  simpl. pose proof (split_not_nil sep s) as Hne.
  destruct (Ascii.eqb c sep) eqn:Hc.
  - apply Ascii.eqb_eq in Hc. subst c.
    destruct (QBA.split sep s) as [|f fs] eqn:Hs; [congruence|].
    simpl in *. now rewrite IH.
  - destruct (QBA.split sep s) as [|f fs] eqn:Hs; [congruence|].
    destruct fs as [|g gs]; simpl in *; now rewrite <- IH.
Qed.

(** No field of a split contains the separator. *)
Lemma split_fields (sep : ascii) (s : QByteArray) :
  Forall (fun field => QBA.indexOf sep field = (-1)%Z) (QBA.split sep s).
Proof.
  induction s as [|c s IH]; simpl.
  - constructor; [reflexivity | constructor].
  - destruct (Ascii.eqb c sep) eqn:Hc.
    + constructor; [reflexivity | exact IH].
    + destruct (QBA.split sep s) as [|f fs]; simpl.
      * constructor; [|constructor]. simpl. now rewrite Hc.
      * inversion IH as [|? ? Hf Hfs]; subst.
        constructor; [|exact Hfs]. simpl. rewrite Hc, Hf. reflexivity.
Qed.

Lemma isEmpty_true (s : QByteArray) : QBA.isEmpty s = true <-> s = "".
Proof. destruct s; simpl; split; congruence. Qed.

End QBAFacts.

(** ** The request parser *)

Section ParserFacts.

Context `{QtText}.

Lemma at_index_middle {A} (pre : list A) (x : A) (post : list A) :
  at_index (pre ++ x :: post)%list (List.length pre) = Some x.
Proof.
  unfold at_index. rewrite nth_error_app2 by lia.
  now rewrite Nat.sub_diag.
Qed.

(** Every access of the header loop is in range. *)
Lemma headerLoop_total (lines : list QByteArray) (remaining : nat) :
  forall i e hdrs,
    (i + remaining = List.length lines)%nat ->
    exists r, headerLoop lines remaining i e hdrs = Some r.
Proof.
  induction remaining as [|remaining IH]; intros i e hdrs Hlen; simpl.
  - eauto.
  - unfold at_index. destruct (nth_error lines i) as [l|] eqn:Hl.
    + destruct (QBA.isEmpty (QBA.trimmed l)); [eauto|].
      apply IH. lia.
    + apply nth_error_None in Hl. lia.
Qed.

(** The loop stops at the first blank line, with the index after it. *)
Lemma headerLoop_blank (hdrLines : list QByteArray) :
  forall pre line after e hdrs,
    Forall (fun l => ~ blank l) hdrLines ->
    blank line ->
    headerLoop (pre ++ hdrLines ++ line :: after)%list
      (List.length hdrLines + S (List.length after)) (List.length pre) e hdrs
    = Some ((List.length pre + List.length hdrLines + 1)%nat, headersOf hdrLines hdrs).
Proof.
  induction hdrLines as [|l ls IH]; intros pre line after e hdrs Hall Hblank.
  - simpl. rewrite at_index_middle. rewrite Hblank. simpl.
    f_equal. f_equal. lia.
  - simpl List.length. simpl headerLoop.
    change (pre ++ (l :: ls) ++ line :: after)%list
      with (pre ++ l :: (ls ++ line :: after))%list.
    rewrite at_index_middle.
    inversion Hall as [|? ? Hl Hls]; subst.
    destruct (QBA.isEmpty (QBA.trimmed l)) eqn:He.
    + apply QBAFacts.isEmpty_true in He. contradiction.
    + specialize (IH (pre ++ [l])%list line after e
                     (parseHeaderLine (QBA.trimmed l) hdrs) Hls Hblank).
      rewrite <- app_assoc in IH. simpl in IH.
      rewrite length_app in IH. simpl in IH.
      rewrite IH. simpl. f_equal. f_equal. lia.
Qed.

(** Without a blank line the loop runs to the end and leaves
    [headerEndIndex] as it was. *)
Lemma headerLoop_no_blank (hdrLines : list QByteArray) :
  forall pre e hdrs,
    Forall (fun l => ~ blank l) hdrLines ->
    headerLoop (pre ++ hdrLines)%list (List.length hdrLines) (List.length pre) e hdrs
    = Some (e, headersOf hdrLines hdrs).
Proof.
  induction hdrLines as [|l ls IH]; intros pre e hdrs Hall.
  - reflexivity.
  - simpl List.length. simpl headerLoop. rewrite at_index_middle.
    inversion Hall as [|? ? Hl Hls]; subst.
    destruct (QBA.isEmpty (QBA.trimmed l)) eqn:He.
    + apply QBAFacts.isEmpty_true in He. contradiction.
    + specialize (IH (pre ++ [l])%list e (parseHeaderLine (QBA.trimmed l) hdrs) Hls).
      rewrite <- app_assoc in IH. simpl in IH.
      rewrite length_app in IH. simpl in IH.
      exact IH.
Qed.

(** The parser, unfolded on the lines of its input. *)
Lemma parseHttpRequest_lines (data : QByteArray) (line0 : QByteArray)
    (rest : list QByteArray) :
  QBA.split LF data = line0 :: rest ->
  exists headerEndIndex hdrs,
    headerLoop (line0 :: rest) (List.length rest) 1 1 QMap.empty
      = Some (headerEndIndex, hdrs)
    /\ parseHttpRequest data
       = Some {| method := fst (requestLineOf line0);
                 path := snd (requestLineOf line0);
                 headers := hdrs;
                 body := if (headerEndIndex <? S (List.length rest))%nat
                         then QBA.join LF (skipn headerEndIndex (line0 :: rest))
                         else "" |}.
Proof.
  intros Hsplit.
  destruct (headerLoop_total (line0 :: rest) (List.length rest) 1 1 QMap.empty)
    as [[headerEndIndex hdrs] Hloop]; [simpl; lia|].
  exists headerEndIndex, hdrs. split; [exact Hloop|].
  unfold parseHttpRequest, requestLineOf. rewrite Hsplit.
  cbn [isEmptyList at_index nth_error List.length].
  replace (S (List.length rest) - 1)%nat with (List.length rest) by lia.
  destruct (QBA.split " " (QBA.trimmed line0)) as [|token0 [|token1 tokens]];
    cbn [List.length Nat.leb nth_error fst snd emptyRequest headers body method path];
    rewrite Hloop; cbn [headers body method path];
    destruct (headerEndIndex <? S (List.length rest))%nat; reflexivity.
Qed.


End ParserFacts.

(** C3. The request parser is total: on every byte array it returns a
    request, with every list access in range.  The input is split on line
    feed (and the lines joined with line feed are the input again); when
    the trimmed request line has fewer than two fields separated by a
    space, the method and the path stay empty; and when the lines after
    the request line are a run of lines that are not blank followed by a
    blank line, the headers are read from that run and the body is all the
    lines after the blank line, joined with line feed. *)
Theorem parseHttpRequest_total_framing `{QtText} (data : QByteArray) :
  exists request,
    parseHttpRequest data = Some request
    /\ QBA.join LF (QBA.split LF data) = data
    /\ (forall line0 rest,
          QBA.split LF data = line0 :: rest ->
          (List.length (QBA.split " " (QBA.trimmed line0)) < 2)%nat ->
          method request = "" /\ path request = "")
    /\ (forall line0 hdrLines line after,
          QBA.split LF data = (line0 :: hdrLines ++ line :: after)%list ->
          Forall (fun l => ~ blank l) hdrLines ->
          blank line ->
          headers request = headersOf hdrLines QMap.empty
          /\ body request = QBA.join LF after).
Proof.
  destruct (QBA.split LF data) as [|first others] eqn:Hsplit.
  - now apply QBAFacts.split_not_nil in Hsplit.
  - destruct (parseHttpRequest_lines data first others Hsplit)
      as (headerEndIndex & hdrs & Hloop & Hparse).
    eexists. split; [exact Hparse|]. split.
    + rewrite <- Hsplit. apply QBAFacts.join_split.
    + split.
      * intros line0 rest [= <- <-] Hfew. cbn [method path].
        unfold requestLineOf.
        destruct (QBA.split " " (QBA.trimmed first)) as [|token0 [|token1 tokens]];
          simpl in *; try (split; reflexivity). lia.
      * intros line0 hdrLines line after [= <- ->] Hrun Hblank.
        cbn [headers body].
        pose proof (headerLoop_blank hdrLines [first] line after 1%nat QMap.empty
                      Hrun Hblank) as Hstop.
        rewrite length_app in Hloop. simpl in Hloop, Hstop.
        rewrite Hstop in Hloop. injection Hloop as <- <-.
        split; [reflexivity|].
        rewrite length_app. simpl List.length.
        replace (S (List.length hdrLines + 1) <?
                 S (List.length hdrLines + S (List.length after)))%nat
          with (negb (isEmptyList after)).
        -- replace (S (List.length hdrLines + 1))%nat
             with (S (List.length (hdrLines ++ [line])))%nat
             by (rewrite length_app; simpl; lia).
           simpl skipn.
           replace (hdrLines ++ line :: after)%list
             with ((hdrLines ++ [line]) ++ after)%list
             by (rewrite <- app_assoc; reflexivity).
           rewrite skipn_app, skipn_all, Nat.sub_diag. simpl.
           destruct after; reflexivity.
        -- destruct after; simpl; symmetry.
           ++ apply Nat.ltb_ge. lia.
           ++ apply Nat.ltb_lt. lia.
Qed.

(** When no line after the request line is blank, [headerEndIndex] stays
    1: the headers are read from all these lines and the same lines,
    joined, are the body. *)
Lemma parseHttpRequest_no_blank_line `{QtText} (data line0 : QByteArray)
    (hdrLines : list QByteArray) :
  QBA.split LF data = line0 :: hdrLines ->
  Forall (fun l => ~ blank l) hdrLines ->
  exists request,
    parseHttpRequest data = Some request
    /\ headers request = headersOf hdrLines QMap.empty
    /\ body request = QBA.join LF hdrLines.
Proof.
  intros Hsplit Hrun.
  destruct (parseHttpRequest_lines data line0 hdrLines Hsplit)
    as (headerEndIndex & hdrs & Hloop & Hparse).
  eexists. split; [exact Hparse|]. cbn [headers body].
  pose proof (headerLoop_no_blank hdrLines [line0] 1%nat QMap.empty Hrun) as Hend.
  simpl in Hend. rewrite Hend in Hloop. injection Hloop as <- <-.
  split; [reflexivity|].
  destruct hdrLines; reflexivity.
Qed.

(** The parser on a request whose request line has one field and whose
    header block ends with a line that holds a carriage return. *)
Lemma parseHttpRequest_total_framing_witness :
  let data := "PING" ++ String LF ("Host: x" ++ String LF
                (String (ascii_of_nat 13) (String LF ("first" ++ String LF "second")))) in
  exists request,
    @parseHttpRequest Doubles.plainText data = Some request
    /\ method request = "" /\ path request = ""
    /\ headers request = [("Host", "x")]
    /\ body request = "first" ++ String LF "second".
Proof.
  intros data.
  destruct (@parseHttpRequest_total_framing Doubles.plainText data)
    as (request & Hparse & _ & Hline & Hframe).
  exists request. split; [exact Hparse|].
  destruct (Hline "PING" ["Host: x"; String (ascii_of_nat 13) ""; "first"; "second"])
    as [Hm Hp]; [reflexivity | simpl; lia |].
  destruct (Hframe "PING" ["Host: x"] (String (ascii_of_nat 13) "") ["first"; "second"])
    as [Hh Hb].
  - reflexivity.
  - constructor; [|constructor]. unfold blank. simpl. discriminate.
  - reflexivity.
  - repeat split; assumption.
Defined.

(** ** The response builder *)

Module ResponseFacts.

Lemma readNumber_number (n : Z) : readNumber (QBA.number n) = Some n.
Proof.
  unfold readNumber, QBA.number.
  pose proof (DecimalZ.of_to n) as Hn.
  destruct (Z.to_int n) as [u|u] eqn:Hd.
  - destruct u;
      try (rewrite NilZero.isi by discriminate; cbn [option_map]; now rewrite Hn).
    rewrite NilZero.isi_posnil. cbn [option_map]. now rewrite <- Hn.
  - destruct u;
      try (rewrite NilZero.isi by discriminate; cbn [option_map]; now rewrite Hn).
    rewrite NilZero.isi_negnil. cbn [option_map]. now rewrite <- Hn.
Qed.

Lemma append_nil_r (a : string) : a ++ "" = a.
Proof. induction a as [|x a IH]; simpl; [reflexivity | now rewrite IH]. Qed.

Lemma append_assoc (a b c : string) : (a ++ b) ++ c = a ++ (b ++ c).
Proof. induction a as [|x a IH]; simpl; [reflexivity | now rewrite IH]. Qed.

(** [String.concat] with an empty separator appends the strings. *)
Lemma concat_cons (x : string) (l : list string) :
  String.concat "" (x :: l) = x ++ String.concat "" l.
Proof. destruct l; simpl; [now rewrite append_nil_r | reflexivity]. Qed.

Lemma concat_app (l1 l2 : list string) :
  String.concat "" (l1 ++ l2)%list = String.concat "" l1 ++ String.concat "" l2.
Proof.
  induction l1 as [|x l1 IH]; [reflexivity|].
  change ((x :: l1) ++ l2)%list with (x :: (l1 ++ l2))%list.
  rewrite !concat_cons, IH. now rewrite append_assoc.
Qed.

(** A header of the map has its line among the header lines. *)
Lemma header_line_emitted (hdrs : QMap.t QString) (key value : QString) :
  QMap.lookup key hdrs = Some value ->
  exists before after,
    String.concat "" (map headerLine hdrs)
    = before ++ (key ++ ": " ++ value ++ CRLF) ++ after.
Proof.
  intros Hl. apply QMapFacts.lookup_In in Hl.
  apply in_split in Hl. destruct Hl as (l1 & l2 & ->).
  exists (String.concat "" (map headerLine l1)),
         (String.concat "" (map headerLine l2)).
  rewrite map_app, concat_app. simpl map. rewrite concat_cons.
  reflexivity.
Qed.

Lemma lookup_carries (response : HttpResponse) (key value : QString) :
  QMap.lookup key (outgoingHeaders response) = Some value ->
  carriesHeader response key value.
Proof.
  intros Hl. destruct (header_line_emitted _ _ _ Hl) as (before & after & Heq).
  exists before, after. unfold responseData. rewrite Heq.
  rewrite !append_assoc. reflexivity.
Qed.

Lemma outgoing_content_length (response : HttpResponse) :
  QMap.lookup "Content-Length" (outgoingHeaders response)
  = Some (QBA.number (QBA.size (responseBody response))).
Proof.
  unfold outgoingHeaders.
  rewrite !QMapFacts.lookup_insert_ne by discriminate.
  destruct (negb _).
  - rewrite QMapFacts.lookup_insert_ne by discriminate.
    apply QMapFacts.lookup_insert.
  - apply QMapFacts.lookup_insert.
Qed.

Lemma outgoing_content_type (response : HttpResponse) :
  QMap.lookup "Content-Type" (outgoingHeaders response)
  = match QMap.lookup "Content-Type" (responseHeaders response) with
    | Some contentType => Some contentType
    | None => Some "application/json"
    end.
Proof.
  unfold outgoingHeaders, QMap.contains.
  rewrite !QMapFacts.lookup_insert_ne by discriminate.
  destruct (QMap.lookup "Content-Type" (responseHeaders response)) eqn:Hct; cbn [negb].
  - rewrite QMapFacts.lookup_insert_ne by discriminate. exact Hct.
  - apply QMapFacts.lookup_insert.
Qed.

Lemma outgoing_cors (response : HttpResponse) :
  QMap.lookup "Access-Control-Allow-Origin" (outgoingHeaders response) = Some "*"
  /\ QMap.lookup "Access-Control-Allow-Methods" (outgoingHeaders response)
     = Some "GET, POST, OPTIONS"
  /\ QMap.lookup "Access-Control-Allow-Headers" (outgoingHeaders response)
     = Some "Content-Type".
Proof.
  unfold outgoingHeaders. repeat split.
  - rewrite !QMapFacts.lookup_insert_ne by discriminate. apply QMapFacts.lookup_insert.
  - rewrite QMapFacts.lookup_insert_ne by discriminate. apply QMapFacts.lookup_insert.
  - apply QMapFacts.lookup_insert.
Qed.

Lemma sendHttpResponse_writable (s : QTcpSocket) (response : HttpResponse) :
  isWritable s = true ->
  sendHttpResponse (Some s) response
  = Some {| isWritable := true;
            written := (written s ++ [responseData response])%list;
            disconnectRequested := true |}.
Proof. intros Hw. unfold sendHttpResponse. now rewrite Hw. Qed.

End ResponseFacts.

(** ** Status objects *)

Section StatusFacts.

Context {Store : Type} `{ControlPlane Store}.
Variable players : PlayerInfo.

(** The status object of a group has its fourteen keys whatever the
    registry and the control plane hold. *)
Lemma getPlayerStatus_keys (store : Store) (group : QString) :
  QMap.keys (getPlayerStatus players store group)
  = ["bpm"; "duration"; "keylock"; "loop_enabled"; "play"; "play_indicator";
     "playposition"; "pregain"; "rate"; "repeat"; "tempo_ratio"; "track";
     "track_loaded"; "volume"].
Proof.
  unfold getPlayerStatus. destruct (getTrackInfo players group); reflexivity.
Qed.

Lemma getPlayerStatus_not_empty (store : Store) (group : QString) :
  QMap.isEmpty (getPlayerStatus players store group) = false.
Proof.
  pose proof (getPlayerStatus_keys store group) as Hk.
  destruct (getPlayerStatus players store group); [discriminate | reflexivity].
Qed.

Lemma fold_appendPlayer_length (store : Store) (entries : QMap.t TrackPointer) :
  forall acc,
    List.length (fold_left (appendPlayer players store) entries acc)
    = (List.length acc + List.length entries)%nat.
Proof.
  induction entries as [|entry entries IH]; intros acc; simpl.
  - lia.
  - rewrite IH. unfold appendPlayer. rewrite length_app. simpl. lia.
Qed.

End StatusFacts.

(** ** The router and the handlers *)

Section ServerFacts.

Context `{QtText} `{QtJson} {Store : Type} `{ControlPlane Store}.
Variable players : PlayerInfo.

Lemma respond_controls (response : HttpResponse) (w : World Store) :
  controls (respond response w) = controls w.
Proof. reflexivity. Qed.

Lemma same_world (w : World Store) :
  {| socket := socket w; controls := controls w |} = w.
Proof. now destruct w. Qed.

(** The player endpoint always answers 200: the status object is never
    empty, so that the branch "Player not found" is not taken. *)
Lemma handleGetPlayer_200 (group : QString) (w : World Store) :
  handleGetPlayer players group w
  = respond {| statusCode := 200; statusText := "OK";
               responseHeaders := QMap.empty;
               responseBody := toJson (getPlayerStatus players (controls w) group) |} w.
Proof.
  unfold handleGetPlayer. now rewrite getPlayerStatus_not_empty.
Qed.

(** Routing, for a method that is not [OPTIONS], is a function of the
    parts of the path. *)
Lemma handleRequest_parts (request : HttpRequest) (w : World Store) :
  String.eqb (method request) "OPTIONS" = false ->
  handleRequest players request w
  = let pathParts := pathPartsOf (path request) in
    let? outsideApi :=
      if isEmptyList pathParts then Some true
      else let? part0 := at_index pathParts 0 in
           Some (negb (String.eqb part0 "api")) in
    if (outsideApi : bool) then
      Some (respond {| statusCode := 404; statusText := "Not Found";
                       responseHeaders := QMap.empty;
                       responseBody :=
                         toJson [("error", JString "Not Found");
                                 ("message", JString "API endpoints are under /api")] |} w)
    else if (List.length pathParts <? 2)%nat then
      Some (respond {| statusCode := 400; statusText := "Bad Request";
                       responseHeaders := QMap.empty;
                       responseBody := toJson [("error", JString "Bad Request")] |} w)
    else
      let? endpoint := at_index pathParts 1 in
      if String.eqb endpoint "status" && String.eqb (method request) "GET" then
        Some (handleGetStatus players request w)
      else if String.eqb endpoint "player" && (3 <=? List.length pathParts)%nat
              && String.eqb (method request) "GET" then
        let? part2 := at_index pathParts 2 in
        Some (handleGetPlayer players (bracketed (fromPercentEncoding (toUtf8 part2))) w)
      else if String.eqb endpoint "control" && (4 <=? List.length pathParts)%nat then
        let? part2 := at_index pathParts 2 in
        let? part3 := at_index pathParts 3 in
        let group := bracketed (fromPercentEncoding (toUtf8 part2)) in
        let item := fromPercentEncoding (toUtf8 part3) in
        if String.eqb (method request) "GET" then
          Some (handleGetControl group item w)
        else if String.eqb (method request) "POST" then
          Some (handleSetControl group item (body request) w)
        else
          Some (respond {| statusCode := 405; statusText := "Method Not Allowed";
                           responseHeaders := QMap.empty;
                           responseBody :=
                             toJson [("error", JString "Method Not Allowed")] |} w)
      else
        Some (respond {| statusCode := 404; statusText := "Not Found";
                         responseHeaders := QMap.empty;
                         responseBody :=
                           toJson [("error", JString "Endpoint not found")] |} w).
Proof.
  intros Hm. unfold handleRequest. rewrite Hm.
  change (if negb (isEmptyList (splitSkipEmptyParts "/" (path request)))
          then updateLast stripQuery (splitSkipEmptyParts "/" (path request))
          else splitSkipEmptyParts "/" (path request))
    with (pathPartsOf (path request)).
  cbv zeta.
  destruct (pathPartsOf (path request)) as [|p0 [|p1 [|p2 [|p3 rest]]]];
    cbn [isEmptyList at_index nth_error]; unfold bracketed;
    repeat match goal with
    | |- context [QBA.startsWith ?c ?g] => destruct (QBA.startsWith c g)
    end; reflexivity.
Qed.

End ServerFacts.

(** ** The endpoints *)

Section Endpoints.

Context `{QtText} `{QtJson} {Store : Type} `{ControlPlane Store}.
Variable players : PlayerInfo.

(** Routing to the control endpoint: the group is the decoded third part
    in brackets, the item the decoded fourth part. *)
Lemma route_control (request : HttpRequest) (w : World Store)
    (g i : QString) (rest : list QString) :
  String.eqb (method request) "OPTIONS" = false ->
  pathPartsOf (path request) = "api" :: "control" :: g :: i :: rest ->
  handleRequest players request w
  = let group := bracketed (fromPercentEncoding (toUtf8 g)) in
    let item := fromPercentEncoding (toUtf8 i) in
    if String.eqb (method request) "GET" then
      Some (handleGetControl group item w)
    else if String.eqb (method request) "POST" then
      Some (handleSetControl group item (body request) w)
    else
      Some (respond {| statusCode := 405; statusText := "Method Not Allowed";
                       responseHeaders := QMap.empty;
                       responseBody :=
                         toJson [("error", JString "Method Not Allowed")] |} w).
Proof.
  intros Hm Hparts. rewrite handleRequest_parts by exact Hm.
  rewrite Hparts. reflexivity.
Qed.

(** What [handleSetControl] does once the body is an object with a value
    and the control exists. *)
Lemma handleSetControl_write (group item : QString) (body : QByteArray)
    (w : World Store) (requestJson : QJsonObject) (value : QJsonValue)
    (pControl : ControlObject) :
  fromJson body = DocObject requestJson ->
  QMap.lookup "value" requestJson = Some value ->
  getControl (controls w) {| group := group; item := item |} = Some pControl ->
  handleSetControl group item body w
  = let after := set pControl (toDouble value) (controls w) in
    respond {| statusCode := 200; statusText := "OK";
               responseHeaders := QMap.empty;
               responseBody :=
                 toJson [("group", JString group); ("item", JString item);
                         ("success", JBool true);
                         ("value", JDouble (get after pControl))] |}
            {| socket := socket w; controls := after |}.
Proof.
  intros Hdoc Hvalue Hcontrol. unfold handleSetControl.
  rewrite Hdoc. cbn [isObject negb object].
  unfold QMap.contains, valueOf. rewrite Hvalue. cbn [negb].
  rewrite Hcontrol. reflexivity.
Qed.

(** C7. A request whose method is [OPTIONS] is answered 204 "No Content"
    with an empty body whatever its path is: the answer is given before
    the path is looked at. *)
Theorem options_always_204 (request : HttpRequest) (w : World Store) :
  method request = "OPTIONS" ->
  handleRequest players request w
  = Some (respond {| statusCode := 204; statusText := "No Content";
                     responseHeaders := QMap.empty;
                     responseBody := "" |} w).
Proof.
  intros Hm. unfold handleRequest. rewrite Hm. reflexivity.
Qed.

(** C6. A GET of [/api/control/{group}/{item}] is answered 200 with
    [{group, item, value}], the value being the one the control holds,
    when the control exists, and 404 with [{error, group, item}] when it
    does not; the group is the normalised one. *)
Theorem get_control_200_or_404 (request : HttpRequest) (w : World Store)
    (g i : QString) (rest : list QString) :
  method request = "GET" ->
  pathPartsOf (path request) = "api" :: "control" :: g :: i :: rest ->
  let group := bracketed (fromPercentEncoding (toUtf8 g)) in
  let item := fromPercentEncoding (toUtf8 i) in
  handleRequest players request w
  = Some (respond
            match getControl (controls w) {| group := group; item := item |} with
            | Some pControl =>
                {| statusCode := 200; statusText := "OK";
                   responseHeaders := QMap.empty;
                   responseBody :=
                     toJson [("group", JString group); ("item", JString item);
                             ("value", JDouble (get (controls w) pControl))] |}
            | None =>
                {| statusCode := 404; statusText := "Not Found";
                   responseHeaders := QMap.empty;
                   responseBody :=
                     toJson [("error", JString "Control not found");
                             ("group", JString group); ("item", JString item)] |}
            end w).
Proof.
  intros Hm Hparts group item.
  rewrite (route_control request w g i rest) by (rewrite ?Hm; auto).
  rewrite Hm. cbn [String.eqb Ascii.eqb Bool.eqb]. cbv zeta.
  unfold handleGetControl. fold group item.
  destruct (getControl (controls w) {| group := group; item := item |}); reflexivity.
Qed.

(** C4. A POST to [/api/control/{group}/{item}] whose body is a JSON
    object with a [value], for a control that exists, writes the value to
    the control and is answered 200 with [{success: true, group, item,
    value}], where the value is read from the control after the write. *)
Theorem set_control_reads_back (request : HttpRequest) (w : World Store)
    (g i : QString) (rest : list QString)
    (requestJson : QJsonObject) (value : QJsonValue) (pControl : ControlObject) :
  method request = "POST" ->
  pathPartsOf (path request) = "api" :: "control" :: g :: i :: rest ->
  let group := bracketed (fromPercentEncoding (toUtf8 g)) in
  let item := fromPercentEncoding (toUtf8 i) in
  fromJson (body request) = DocObject requestJson ->
  QMap.lookup "value" requestJson = Some value ->
  getControl (controls w) {| group := group; item := item |} = Some pControl ->
  let after := set pControl (toDouble value) (controls w) in
  handleRequest players request w
  = Some (respond {| statusCode := 200; statusText := "OK";
                     responseHeaders := QMap.empty;
                     responseBody :=
                       toJson [("group", JString group); ("item", JString item);
                               ("success", JBool true);
                               ("value", JDouble (get after pControl))] |}
                  {| socket := socket w; controls := after |}).
Proof.
  intros Hm Hparts group item Hdoc Hvalue Hcontrol after.
  rewrite (route_control request w g i rest) by (rewrite ?Hm; auto).
  rewrite Hm. cbn [String.eqb Ascii.eqb Bool.eqb]. cbv zeta.
  now rewrite (handleSetControl_write _ _ _ w requestJson value pControl).
Qed.

(** C10. When the [value] of the body is not a JSON number, the POST is
    not refused: for a control that exists, 0 is written to it and the
    answer is 200 with [success] true and the value read back. *)
Theorem set_control_coerces_non_number (request : HttpRequest) (w : World Store)
    (g i : QString) (rest : list QString)
    (requestJson : QJsonObject) (value : QJsonValue) (pControl : ControlObject) :
  method request = "POST" ->
  pathPartsOf (path request) = "api" :: "control" :: g :: i :: rest ->
  let group := bracketed (fromPercentEncoding (toUtf8 g)) in
  let item := fromPercentEncoding (toUtf8 i) in
  fromJson (body request) = DocObject requestJson ->
  QMap.lookup "value" requestJson = Some value ->
  isDouble value = false ->
  getControl (controls w) {| group := group; item := item |} = Some pControl ->
  let after := set pControl 0%float (controls w) in
  handleRequest players request w
  = Some (respond {| statusCode := 200; statusText := "OK";
                     responseHeaders := QMap.empty;
                     responseBody :=
                       toJson [("group", JString group); ("item", JString item);
                               ("success", JBool true);
                               ("value", JDouble (get after pControl))] |}
                  {| socket := socket w; controls := after |}).
Proof.
  intros Hm Hparts group item Hdoc Hvalue Hkind Hcontrol after.
  rewrite (route_control request w g i rest) by (rewrite ?Hm; auto).
  rewrite Hm. cbn [String.eqb Ascii.eqb Bool.eqb]. cbv zeta.
  rewrite (handleSetControl_write _ _ _ w requestJson value pControl) by assumption.
  assert (Hzero : toDouble value = 0%float) by (destruct value; try reflexivity; discriminate).
  rewrite Hzero. reflexivity.
Qed.

(** C5. A POST to [/api/control/{group}/{item}] is answered 400 with the
    message "Invalid JSON body..." when the body does not parse as a JSON
    object, and 400 with the message "Missing 'value' field..." when it
    parses as an object without the key [value]; in both cases the control
    store is left as it was. *)
Theorem set_control_bad_body (request : HttpRequest) (w : World Store)
    (g i : QString) (rest : list QString) :
  method request = "POST" ->
  pathPartsOf (path request) = "api" :: "control" :: g :: i :: rest ->
  (isObject (fromJson (body request)) = false ->
   exists w',
     handleRequest players request w = Some w'
     /\ w' = respond {| statusCode := 400; statusText := "Bad Request";
                        responseHeaders := QMap.empty;
                        responseBody :=
                          toJson [("error", JString invalidJsonBody)] |} w
     /\ String.prefix "Invalid JSON body" invalidJsonBody = true
     /\ controls w' = controls w)
  /\ (forall requestJson,
        fromJson (body request) = DocObject requestJson ->
        QMap.lookup "value" requestJson = None ->
        exists w',
          handleRequest players request w = Some w'
          /\ w' = respond {| statusCode := 400; statusText := "Bad Request";
                             responseHeaders := QMap.empty;
                             responseBody :=
                               toJson [("error",
                                        JString "Missing 'value' field in request body")] |} w
          /\ controls w' = controls w).
Proof.
  intros Hm Hparts.
  rewrite (route_control request w g i rest) by (rewrite ?Hm; auto).
  rewrite Hm. cbn [String.eqb Ascii.eqb Bool.eqb]. cbv zeta.
  unfold handleSetControl. split.
  - intros Hdoc. rewrite Hdoc. cbn [negb].
    eexists. split; [reflexivity|]. repeat split.
  - intros requestJson Hdoc Hvalue. rewrite Hdoc. cbn [isObject negb object].
    unfold QMap.contains. rewrite Hvalue. cbn [negb].
    eexists. split; [reflexivity|]. repeat split.
Qed.

End Endpoints.

(** ** One response for each request *)

Section OneResponse.

Context `{QtText} `{QtJson} {Store : Type} `{ControlPlane Store}.
Variable players : PlayerInfo.

Lemma respond_once (response : HttpResponse) (w : World Store) :
  responseHeaders response = QMap.empty ->
  respondsOnce w (respond response w).
Proof.
  intros Hh. exists response, (controls w). now rewrite same_world.
Qed.

Lemma handleGetStatus_once (request : HttpRequest) (w : World Store) :
  respondsOnce w (handleGetStatus players request w).
Proof. now apply respond_once. Qed.

Lemma handleGetPlayer_once (group : QString) (w : World Store) :
  respondsOnce w (handleGetPlayer players group w).
Proof. rewrite handleGetPlayer_200. now apply respond_once. Qed.

Lemma handleGetControl_once (group item : QString) (w : World Store) :
  respondsOnce w (handleGetControl group item w).
Proof.
  unfold handleGetControl.
  destruct (getControl (controls w) _); now apply respond_once.
Qed.

Lemma handleSetControl_once (group item : QString) (body : QByteArray)
    (w : World Store) :
  respondsOnce w (handleSetControl group item body w).
Proof.
  unfold handleSetControl.
  destruct (negb (isObject (fromJson body))); [now apply respond_once|].
  destruct (negb (QMap.contains "value" (object (fromJson body))));
    [now apply respond_once|].
  destruct (getControl (controls w) _) as [pControl|]; [|now apply respond_once].
  cbv zeta. eexists. eexists. split; reflexivity.
Qed.

Lemma handleRequest_once (request : HttpRequest) (w : World Store) :
  exists w', handleRequest players request w = Some w' /\ respondsOnce w w'.
Proof.
  destruct (String.eqb (method request) "OPTIONS") eqn:Hm.
  - unfold handleRequest. rewrite Hm.
    eexists. split; [reflexivity | now apply respond_once].
  - rewrite handleRequest_parts by exact Hm. cbv zeta.
    destruct (pathPartsOf (path request)) as [|p0 [|p1 [|p2 [|p3 rest]]]];
      cbn [isEmptyList at_index nth_error List.length Nat.ltb Nat.leb];
      repeat (match goal with
              | |- context [String.eqb ?a ?b] => destruct (String.eqb a b)
              end; cbn [andb negb]);
      eexists; (split; [reflexivity|]);
      auto using respond_once, handleGetStatus_once, handleGetPlayer_once,
        handleGetControl_once, handleSetControl_once.
Qed.


End OneResponse.

Section Claims.

Context `{QtText} `{QtJson} {Store : Type} `{ControlPlane Store}.
Variable players : PlayerInfo.

(** C2. Every request is answered by one response: handling a request is
    one call of the response builder, on a response without headers of its
    own, and on a socket that can be written to it writes one byte array,
    the bytes of that response.  The response builder, on such a socket,
    writes the bytes of the response it is given, which carry
    [Content-Length] with the decimal number of bytes of the body, the
    three CORS headers, and [Content-Type]: [application/json] unless the
    response has a [Content-Type] already. *)
Theorem every_request_one_response :
  (forall (request : HttpRequest) (w : World Store),
     exists w', handleRequest players request w = Some w' /\ respondsOnce w w')
  /\ (forall (request : HttpRequest) (w : World Store) (s : QTcpSocket),
        socket w = Some s ->
        isWritable s = true ->
        exists response w',
          handleRequest players request w = Some w'
          /\ responseHeaders response = QMap.empty
          /\ socket w'
             = Some {| isWritable := true;
                       written := (written s ++ [responseData response])%list;
                       disconnectRequested := true |})
  /\ (forall (response : HttpResponse) (s : QTcpSocket),
        isWritable s = true ->
        let bodyLength := Z.of_nat (String.length (responseBody response)) in
        sendHttpResponse (Some s) response
        = Some {| isWritable := true;
                  written := (written s ++ [responseData response])%list;
                  disconnectRequested := true |}
        /\ sentWith response "Content-Length" (QBA.number bodyLength)
        /\ readNumber (QBA.number bodyLength) = Some bodyLength
        /\ sentWith response "Access-Control-Allow-Origin" "*"
        /\ sentWith response "Access-Control-Allow-Methods" "GET, POST, OPTIONS"
        /\ sentWith response "Access-Control-Allow-Headers" "Content-Type"
        /\ sentWith response "Content-Type"
             match QMap.lookup "Content-Type" (responseHeaders response) with
             | Some contentType => contentType
             | None => "application/json"
             end).
Proof.
  split; [|split].
  - apply handleRequest_once.
  - intros request w s Hsocket Hw.
    destruct (handleRequest_once players request w)
      as (w' & Hhandle & response & after & -> & Hheaders).
    exists response. eexists. split; [exact Hhandle|]. split; [exact Hheaders|].
    cbn [respond socket]. rewrite Hsocket.
    now apply ResponseFacts.sendHttpResponse_writable.
  - intros response s Hw bodyLength.
    pose proof (ResponseFacts.outgoing_cors response) as (Horigin & Hmethods & Hheaders).
    pose proof (ResponseFacts.outgoing_content_length response) as Hlength.
    pose proof (ResponseFacts.outgoing_content_type response) as Htype.
    assert (Htype' :
      QMap.lookup "Content-Type" (outgoingHeaders response)
      = Some match QMap.lookup "Content-Type" (responseHeaders response) with
             | Some contentType => contentType
             | None => "application/json"
             end)
      by (destruct (QMap.lookup "Content-Type" (responseHeaders response)); exact Htype).
    unfold sentWith.
    repeat split;
      auto using ResponseFacts.sendHttpResponse_writable,
        ResponseFacts.readNumber_number, ResponseFacts.lookup_carries.
Qed.

(** C8. A GET of [/api/status] is answered 200 with an object of two
    keys: [players], an array with one element for each entry of the
    loaded tracks of the player registry, and [master], an object with the
    keys [volume], [balance], [headVolume] and [headMix] and no other,
    where each value is null when the control of the group [[Master]] does
    not exist and the number it holds when it does. *)
Theorem get_status_players_and_master (request : HttpRequest) (w : World Store)
    (rest : list QString) :
  method request = "GET" ->
  pathPartsOf (path request) = "api" :: "status" :: rest ->
  exists (playerList : QJsonArray) (master : QJsonObject),
    handleRequest players request w
    = Some (respond {| statusCode := 200; statusText := "OK";
                       responseHeaders := QMap.empty;
                       responseBody :=
                         toJson [("master", JObject master);
                                 ("players", JArray playerList)] |} w)
    /\ List.length playerList = QMap.size (getLoadedTracks players)
    /\ QMap.keys master = ["balance"; "headMix"; "headVolume"; "volume"]
    /\ (forall key value,
          QMap.lookup key master = Some value ->
          match getControl (controls w) {| group := "[Master]"; item := key |} with
          | Some pControl => value = JDouble (get (controls w) pControl)
          | None => value = JNull
          end).
Proof.
  intros Hm Hparts.
  exists (fold_left (appendPlayer players (controls w)) (getLoadedTracks players) []).
  exists [("balance", getControlValue (controls w) "[Master]" "balance");
          ("headMix", getControlValue (controls w) "[Master]" "headMix");
          ("headVolume", getControlValue (controls w) "[Master]" "headVolume");
          ("volume", getControlValue (controls w) "[Master]" "volume")].
  split; [|split; [|split]].
  - rewrite handleRequest_parts by (rewrite Hm; reflexivity).
    rewrite Hparts, Hm. reflexivity.
  - now rewrite fold_appendPlayer_length.
  - reflexivity.
  - intros key value. cbn [QMap.lookup]. unfold getControlValue.
    repeat match goal with
    | |- context [String.eqb key ?k] =>
        let Hk := fresh "Hk" in
        destruct (String.eqb key k) eqn:Hk;
        [apply String.eqb_eq in Hk; subst key; intros [= <-];
         destruct (getControl _ _); reflexivity |]
    end.
    discriminate.
Qed.

(** C9. The group of the player endpoint and of the control endpoint is
    the percent-decoded third part of the path, put in brackets when it
    does not start with [[]; the item is the decoded fourth part as it is.
    The two endpoints do the same, and two requests that differ only in
    that the group of one is the group of the other without its brackets
    are handled alike. *)
Theorem group_normalised_on_both_endpoints (w : World Store) :
  (forall request g rest,
     method request = "GET" ->
     pathPartsOf (path request) = "api" :: "player" :: g :: rest ->
     handleRequest players request w
     = Some (handleGetPlayer players (bracketed (fromPercentEncoding (toUtf8 g))) w))
  /\ (forall request g i rest,
        method request <> "OPTIONS" ->
        pathPartsOf (path request) = "api" :: "control" :: g :: i :: rest ->
        let group := bracketed (fromPercentEncoding (toUtf8 g)) in
        let item := fromPercentEncoding (toUtf8 i) in
        handleRequest players request w
        = if String.eqb (method request) "GET" then
            Some (handleGetControl group item w)
          else if String.eqb (method request) "POST" then
            Some (handleSetControl group item (body request) w)
          else
            Some (respond {| statusCode := 405; statusText := "Method Not Allowed";
                             responseHeaders := QMap.empty;
                             responseBody :=
                               toJson [("error", JString "Method Not Allowed")] |} w))
  /\ (forall decoded,
        QBA.startsWith "[" decoded = false ->
        bracketed decoded = "[" ++ decoded ++ "]"
        /\ bracketed ("[" ++ decoded ++ "]") = "[" ++ decoded ++ "]")
  /\ (forall decoded,
        QBA.startsWith "[" decoded = true -> bracketed decoded = decoded)
  /\ (forall request1 request2 endpoint g1 g2 rest,
        method request1 = method request2 ->
        body request1 = body request2 ->
        pathPartsOf (path request1) = "api" :: endpoint :: g1 :: rest ->
        pathPartsOf (path request2) = "api" :: endpoint :: g2 :: rest ->
        QBA.startsWith "[" (fromPercentEncoding (toUtf8 g1)) = false ->
        fromPercentEncoding (toUtf8 g2)
        = "[" ++ fromPercentEncoding (toUtf8 g1) ++ "]" ->
        handleRequest players request1 w = handleRequest players request2 w).
Proof.
  split; [|split; [|split; [|split]]].
  - intros request g rest Hm Hparts.
    rewrite handleRequest_parts by (rewrite Hm; reflexivity).
    rewrite Hparts, Hm. reflexivity.
  - intros request g i rest Hm Hparts.
    apply route_control with (rest := rest); [|exact Hparts].
    now apply String.eqb_neq.
  - intros decoded Hstart. unfold bracketed. rewrite Hstart. split; reflexivity.
  - intros decoded Hstart. unfold bracketed. now rewrite Hstart.
  - intros request1 request2 endpoint g1 g2 rest Hm Hb Hp1 Hp2 Hstart Hg2.
    assert (Hsame : bracketed (fromPercentEncoding (toUtf8 g1))
                    = bracketed (fromPercentEncoding (toUtf8 g2))).
    { rewrite Hg2. unfold bracketed. rewrite Hstart. reflexivity. }
    destruct (String.eqb (method request1) "OPTIONS") eqn:Ho.
    + unfold handleRequest. rewrite <- Hm, Ho. reflexivity.
    + rewrite !handleRequest_parts by (rewrite <- ?Hm; exact Ho).
      rewrite Hp1, Hp2, <- Hm, <- Hb. cbv zeta.
      cbn [isEmptyList at_index nth_error List.length].
      rewrite Hsame.
      destruct rest; reflexivity.
Qed.

End Claims.

(** ** The server on examples *)

Module Examples.

Import Doubles.

(** The server with the implementations of [Doubles]. *)
Definition serve (registry : PlayerInfo) (r : HttpRequest) (w : World Controls)
    : option (World Controls) :=
  @handleRequest plainText keysOnly Controls clamping registry r w.

Definition json (o : QJsonObject) : QByteArray := @toJson keysOnly o.

(** C1, on the request of the specification: with no player and no
    control at all, [GET /api/player/nonexistent-group] is answered 200
    with a status object of fourteen null values, where the specification
    has 404 "Player not found".  [handleGetPlayer] tests whether the status
    object is empty after [getPlayerStatus] has put its fourteen keys in
    it ([handleGetPlayer_200]). *)
Theorem player_not_found_is_answered_200 :
  serve noPlayers (request "GET" "/api/player/nonexistent-group" "") (world noControls)
  = Some (respond {| statusCode := 200; statusText := "OK";
                     responseHeaders := QMap.empty;
                     responseBody :=
                       json [("bpm", JNull); ("duration", JNull); ("keylock", JNull);
                             ("loop_enabled", JNull); ("play", JNull);
                             ("play_indicator", JNull); ("playposition", JNull);
                             ("pregain", JNull); ("rate", JNull); ("repeat", JNull);
                             ("tempo_ratio", JNull); ("track", JNull);
                             ("track_loaded", JNull); ("volume", JNull)] |}
                  (world noControls))
  /\ serve noPlayers (request "GET" "/api/player/nonexistent-group" "") (world noControls)
     <> Some (respond {| statusCode := 404; statusText := "Not Found";
                         responseHeaders := QMap.empty;
                         responseBody :=
                           json [("error", JString "Player not found");
                                 ("group", JString "[nonexistent-group]")] |}
                      (world noControls)).
Proof.
  split; [reflexivity|]. vm_compute. discriminate.
Qed.

Lemma options_always_204_witness :
  serve noPlayers (request "OPTIONS" "/no/such/endpoint" "") (world oneControl)
  = Some (respond {| statusCode := 204; statusText := "No Content";
                     responseHeaders := QMap.empty;
                     responseBody := "" |} (world oneControl)).
Proof.
  apply (@options_always_204 plainText keysOnly Controls clamping noPlayers).
  reflexivity.
Defined.

Lemma get_control_200_or_404_witness :
  serve noPlayers (request "GET" "/api/control/Channel1/volume" "") (world oneControl)
  = Some (respond {| statusCode := 200; statusText := "OK";
                     responseHeaders := QMap.empty;
                     responseBody :=
                       json [("group", JString "[Channel1]");
                             ("item", JString "volume");
                             ("value", JDouble 0.25)] |} (world oneControl)).
Proof.
  apply (@get_control_200_or_404 plainText keysOnly Controls clamping noPlayers
           (request "GET" "/api/control/Channel1/volume" "") (world oneControl)
           "Channel1" "volume" []); reflexivity.
Defined.

(** The control keeps its value under 1: 2 is asked for, 1 is answered. *)
Lemma set_control_reads_back_witness :
  serve noPlayers (request "POST" "/api/control/Channel1/volume" (valueBody "2"))
    (world oneControl)
  = Some (respond {| statusCode := 200; statusText := "OK";
                     responseHeaders := QMap.empty;
                     responseBody :=
                       json [("group", JString "[Channel1]");
                             ("item", JString "volume");
                             ("success", JBool true);
                             ("value", JDouble 1)] |}
                  (world [(channel1Volume, 1%float)])).
Proof.
  apply (@set_control_reads_back plainText keysOnly Controls clamping noPlayers
           (request "POST" "/api/control/Channel1/volume" (valueBody "2"))
           (world oneControl) "Channel1" "volume" []
           [("value", JDouble 2)] (JDouble 2) channel1Volume); reflexivity.
Defined.

Lemma set_control_coerces_non_number_witness :
  serve noPlayers (request "POST" "/api/control/Channel1/volume" (valueBody "true"))
    (world oneControl)
  = Some (respond {| statusCode := 200; statusText := "OK";
                     responseHeaders := QMap.empty;
                     responseBody :=
                       json [("group", JString "[Channel1]");
                             ("item", JString "volume");
                             ("success", JBool true);
                             ("value", JDouble 0)] |}
                  (world [(channel1Volume, 0%float)])).
Proof.
  apply (@set_control_coerces_non_number plainText keysOnly Controls clamping noPlayers
           (request "POST" "/api/control/Channel1/volume" (valueBody "true"))
           (world oneControl) "Channel1" "volume" []
           [("value", JBool true)] (JBool true) channel1Volume); reflexivity.
Defined.

Lemma set_control_bad_body_witness :
  (exists w',
     serve noPlayers (request "POST" "/api/control/Channel1/volume" "not-json")
       (world oneControl) = Some w'
     /\ controls w' = oneControl)
  /\ (exists w',
        serve noPlayers (request "POST" "/api/control/Channel1/volume" "{}")
          (world oneControl) = Some w'
        /\ controls w' = oneControl).
Proof.
  split.
  - destruct (@set_control_bad_body plainText keysOnly Controls clamping noPlayers
                (request "POST" "/api/control/Channel1/volume" "not-json")
                (world oneControl) "Channel1" "volume" [] eq_refl eq_refl)
      as [Hinvalid _].
    destruct (Hinvalid eq_refl) as (w' & Hw' & _ & _ & Hcontrols).
    exists w'. split; [exact Hw' | exact Hcontrols].
  - destruct (@set_control_bad_body plainText keysOnly Controls clamping noPlayers
                (request "POST" "/api/control/Channel1/volume" "{}")
                (world oneControl) "Channel1" "volume" [] eq_refl eq_refl)
      as [_ Hmissing].
    destruct (Hmissing QMap.empty eq_refl eq_refl) as (w' & Hw' & _ & Hcontrols).
    exists w'. split; [exact Hw' | exact Hcontrols].
Defined.

Lemma get_status_players_and_master_witness :
  exists (playerList : QJsonArray) (master : QJsonObject),
    serve twoPlayers (request "GET" "/api/status" "") (world oneControl)
    = Some (respond {| statusCode := 200; statusText := "OK";
                       responseHeaders := QMap.empty;
                       responseBody :=
                         json [("master", JObject master);
                               ("players", JArray playerList)] |} (world oneControl))
    /\ List.length playerList = 2%nat
    /\ QMap.keys master = ["balance"; "headMix"; "headVolume"; "volume"].
Proof.
  destruct (@get_status_players_and_master plainText keysOnly Controls clamping
              twoPlayers (request "GET" "/api/status" "") (world oneControl) []
              eq_refl eq_refl)
    as (playerList & master & Hserve & Hlength & Hkeys & _).
  exists playerList, master. repeat split; assumption.
Defined.

Lemma group_normalised_on_both_endpoints_witness :
  serve noPlayers (request "GET" "/api/control/Channel1/volume" "") (world oneControl)
  = serve noPlayers (request "GET" "/api/control/[Channel1]/volume" "") (world oneControl)
  /\ serve noPlayers (request "GET" "/api/player/Channel1" "") (world oneControl)
     = Some (@handleGetPlayer keysOnly Controls clamping noPlayers "[Channel1]"
               (world oneControl))
  /\ serve noPlayers (request "DELETE" "/api/control/Channel1/volume" "") (world oneControl)
     = Some (respond {| statusCode := 405; statusText := "Method Not Allowed";
                        responseHeaders := QMap.empty;
                        responseBody := json [("error", JString "Method Not Allowed")] |}
                     (world oneControl))
  /\ bracketed "Channel1" = "[Channel1]"
  /\ bracketed "[Channel1]" = "[Channel1]".
Proof.
  destruct (@group_normalised_on_both_endpoints plainText keysOnly Controls clamping
              noPlayers (world oneControl))
    as (Hplayer & Hcontrol & Hwrap & Hkeep & Hsame).
  split; [|split; [|split; [|split]]].
  - apply (Hsame (request "GET" "/api/control/Channel1/volume" "")
                 (request "GET" "/api/control/[Channel1]/volume" "")
                 "control" "Channel1" "[Channel1]" ["volume"]); reflexivity.
  - apply (Hplayer (request "GET" "/api/player/Channel1" "") "Channel1" []);
      reflexivity.
  - apply (Hcontrol (request "DELETE" "/api/control/Channel1/volume" "")
                    "Channel1" "volume" []); [discriminate | reflexivity].
  - apply (Hwrap "Channel1"). reflexivity.
  - apply (Hkeep "[Channel1]"). reflexivity.
Defined.

Lemma every_request_one_response_witness :
  let response := {| statusCode := 204; statusText := "No Content";
                     responseHeaders := QMap.empty; responseBody := "" |} in
  sendHttpResponse (Some openSocket) response
  = Some {| isWritable := true;
            written := [responseData response];
            disconnectRequested := true |}
  /\ sentWith response "Content-Length" "0"
  /\ sentWith response "Content-Type" "application/json"
  /\ exists sent w',
       serve noPlayers (request "GET" "/api/control/Channel1/volume" "") (world oneControl)
       = Some w'
       /\ socket w'
          = Some {| isWritable := true;
                    written := [responseData sent];
                    disconnectRequested := true |}.
Proof.
  intros response.
  destruct (@every_request_one_response plainText keysOnly Controls clamping noPlayers)
    as (_ & Hwritten & Hbuilder).
  destruct (Hbuilder response openSocket eq_refl)
    as (Hsend & Hlength & _ & _ & _ & _ & Htype).
  destruct (Hwritten (request "GET" "/api/control/Channel1/volume" "")
                     (world oneControl) openSocket eq_refl eq_refl)
    as (sent & w' & Hserve & _ & Hsocket).
  split; [exact Hsend | split; [exact Hlength | split; [exact Htype|]]].
  exists sent, w'. split; [exact Hserve | exact Hsocket].
Defined.

End Examples.

(** * Further properties of the code *)

(** ** The request parser, continued *)

Section ParserMore.

Context `{QtText}.

Lemma skipn_block {A} (x : A) (pre : list A) (y : A) (post : list A) :
  skipn (S (List.length pre + 1)) (x :: pre ++ y :: post)%list = post.
Proof.
  simpl skipn.
  replace (pre ++ y :: post)%list with ((pre ++ [y]) ++ post)%list
    by (rewrite <- app_assoc; reflexivity).
  replace (List.length pre + 1)%nat with (List.length (pre ++ [y]))%nat
    by (rewrite length_app; reflexivity).
  rewrite skipn_app, skipn_all, Nat.sub_diag. reflexivity.
Qed.

(** The request that the parser returns when the header block is closed
    by a blank line. *)
Lemma parseHttpRequest_block (data line0 : QByteArray)
    (hdrLines : list QByteArray) (line : QByteArray) (after : list QByteArray) :
  QBA.split LF data = (line0 :: hdrLines ++ line :: after)%list ->
  Forall (fun l => ~ blank l) hdrLines ->
  blank line ->
  parseHttpRequest data
  = Some {| method := fst (requestLineOf line0);
            path := snd (requestLineOf line0);
            headers := headersOf hdrLines QMap.empty;
            body := QBA.join LF after |}.
Proof.
  intros Hsplit Hrun Hblank.
  destruct (parseHttpRequest_lines data line0 _ Hsplit)
    as (headerEndIndex & hdrs & Hloop & Hparse).
  pose proof (headerLoop_blank hdrLines [line0] line after 1%nat QMap.empty
                Hrun Hblank) as Hstop.
  rewrite length_app in Hloop. simpl in Hloop, Hstop.
  rewrite Hstop in Hloop. injection Hloop as <- <-.
  rewrite Hparse. do 2 f_equal.
  rewrite skipn_block.
  destruct after as [|a after'].
  - now destruct (_ <? _)%nat.
  - rewrite length_app. simpl List.length.
    replace (S (List.length hdrLines + 1)
             <? S (List.length hdrLines + S (S (List.length after'))))%nat
      with true by (symmetry; apply Nat.ltb_lt; lia).
    reflexivity.
Qed.

(** Looking a key up in the headers read from a block of lines. *)
Lemma lookup_parseHeaderLine (key : QString) (l : QByteArray) (hdrs : QMap.t QString) :
  QMap.lookup key (parseHeaderLine (QBA.trimmed l) hdrs)
  = match headerEntry l with
    | Some (k, v) => if String.eqb key k then Some v else QMap.lookup key hdrs
    | None => QMap.lookup key hdrs
    end.
Proof.
  unfold parseHeaderLine, headerEntry.
  destruct (0 <? QBA.indexOf ":" (QBA.trimmed l))%Z; [|reflexivity].
  destruct (String.eqb key _) eqn:Hk.
  - apply String.eqb_eq in Hk. rewrite Hk. apply QMapFacts.lookup_insert.
  - apply String.eqb_neq in Hk. now apply QMapFacts.lookup_insert_ne.
Qed.

Lemma lookup_headersOf (key : QString) (hdrLines : list QByteArray) :
  forall hdrs,
    QMap.lookup key (headersOf hdrLines hdrs)
    = lastValue key hdrLines (QMap.lookup key hdrs).
Proof.
  induction hdrLines as [|l ls IH]; intros hdrs; [reflexivity|].
  unfold headersOf, lastValue in *. simpl fold_left.
  rewrite IH, lookup_parseHeaderLine.
  destruct (headerEntry l) as [[k v]|]; [|reflexivity].
  destruct (String.eqb key k); reflexivity.
Qed.

Lemma join_app (sep : ascii) (l1 l2 : list QByteArray) :
  l1 <> [] -> l2 <> [] ->
  QBA.join sep (l1 ++ l2) = QBA.join sep l1 ++ String sep (QBA.join sep l2).
Proof.
  intros H1 H2. induction l1 as [|x l1 IH]; [contradiction|].
  destruct l1 as [|y l1].
  - destruct l2; [contradiction | reflexivity].
  - change (QBA.join sep ((x :: y :: l1) ++ l2))
      with (x ++ String sep (QBA.join sep ((y :: l1) ++ l2))).
    rewrite IH by discriminate.
    change (QBA.join sep (x :: y :: l1))
      with (x ++ String sep (QBA.join sep (y :: l1))).
    rewrite ResponseFacts.append_assoc. reflexivity.
Qed.

(** X1. The headers of a request are a map from the lower-cased names to
    the values: for every name, the value is the one of the last line of
    the header block that gives that name, and a line without a colon
    after its first character gives none. *)
Theorem parsed_headers_last_wins (data line0 : QByteArray)
    (hdrLines : list QByteArray) (line : QByteArray) (after : list QByteArray) :
  QBA.split LF data = (line0 :: hdrLines ++ line :: after)%list ->
  Forall (fun l => ~ blank l) hdrLines ->
  blank line ->
  exists request,
    parseHttpRequest data = Some request
    /\ forall key,
         QMap.lookup key (headers request) = lastValue key hdrLines None.
Proof.
  intros Hsplit Hrun Hblank.
  eexists. split; [exact (parseHttpRequest_block _ _ _ _ _ Hsplit Hrun Hblank)|].
  intros key. cbn [headers]. apply lookup_headersOf.
Qed.

(** X2. The body is taken as it is: the input is the lines up to the
    blank line, a line feed, and the body; nothing of what follows the
    header block is cut off or changed. *)
Theorem parsed_body_verbatim (data line0 : QByteArray)
    (hdrLines : list QByteArray) (line : QByteArray) (after : list QByteArray) :
  QBA.split LF data = (line0 :: hdrLines ++ line :: after)%list ->
  Forall (fun l => ~ blank l) hdrLines ->
  blank line ->
  after <> [] ->
  exists request,
    parseHttpRequest data = Some request
    /\ data = QBA.join LF (line0 :: hdrLines ++ [line]) ++ String LF (body request).
Proof.
  intros Hsplit Hrun Hblank Hafter.
  eexists. split; [exact (parseHttpRequest_block _ _ _ _ _ Hsplit Hrun Hblank)|].
  cbn [body]. rewrite <- join_app by (discriminate || assumption).
  rewrite <- (QBAFacts.join_split LF data) at 1. rewrite Hsplit.
  simpl app. now rewrite <- app_assoc.
Qed.

(** X3. The method and the path are the first two fields of the trimmed
    request line; what follows them on the line is not looked at. *)
Theorem parsed_request_line (data line0 : QByteArray) (rest : list QByteArray)
    (token0 token1 : QByteArray) (more : list QByteArray) :
  QBA.split LF data = line0 :: rest ->
  QBA.split " " (QBA.trimmed line0) = token0 :: token1 :: more ->
  exists request,
    parseHttpRequest data = Some request
    /\ method request = fromUtf8 token0
    /\ path request = fromUtf8 token1.
Proof.
  intros Hsplit Htokens.
  destruct (parseHttpRequest_lines data line0 rest Hsplit)
    as (headerEndIndex & hdrs & _ & Hparse).
  eexists. split; [exact Hparse|].
  cbn [method path]. unfold requestLineOf. rewrite Htokens. split; reflexivity.
Qed.

End ParserMore.

(** ** The response builder, continued *)

Section BuilderMore.

(** X4. The headers that a response has of its own, other than the five
    that the builder sets, are sent as they are. *)
Theorem own_headers_are_sent (response : HttpResponse) (key value : QString) :
  ~ In key ["Content-Length"; "Content-Type"; "Access-Control-Allow-Origin";
            "Access-Control-Allow-Methods"; "Access-Control-Allow-Headers"] ->
  QMap.lookup key (responseHeaders response) = Some value ->
  sentWith response key value.
Proof.
  intros Hkey Hown.
  assert (Hout : QMap.lookup key (outgoingHeaders response) = Some value).
  { unfold outgoingHeaders.
    rewrite !QMapFacts.lookup_insert_ne by (intros ->; apply Hkey; simpl; tauto).
    destruct (negb _).
    - rewrite !QMapFacts.lookup_insert_ne by (intros ->; apply Hkey; simpl; tauto).
      exact Hown.
    - rewrite QMapFacts.lookup_insert_ne by (intros ->; apply Hkey; simpl; tauto).
      exact Hown. }
  split; [exact Hout | now apply ResponseFacts.lookup_carries].
Qed.

(** The header map of a response that has no header of its own. *)
Lemma outgoingHeaders_plain (response : HttpResponse) :
  responseHeaders response = QMap.empty ->
  outgoingHeaders response
  = [("Access-Control-Allow-Headers", "Content-Type");
     ("Access-Control-Allow-Methods", "GET, POST, OPTIONS");
     ("Access-Control-Allow-Origin", "*");
     ("Content-Length", QBA.number (QBA.size (responseBody response)));
     ("Content-Type", "application/json")].
Proof.
  intros Hown. unfold outgoingHeaders. rewrite Hown.
  generalize (QBA.number (QBA.size (responseBody response))) as n. intros n.
  vm_compute. reflexivity.
Qed.

(** X5. The bytes of a response that has no header of its own, as every
    response of the handlers is: the status line, the five headers in the
    order of their names, an empty line and the body. *)
Theorem response_bytes (response : HttpResponse) :
  responseHeaders response = QMap.empty ->
  responseData response
  = "HTTP/1.1 " ++ QBA.number (statusCode response) ++ " "
      ++ statusText response ++ CRLF
      ++ "Access-Control-Allow-Headers: Content-Type" ++ CRLF
      ++ "Access-Control-Allow-Methods: GET, POST, OPTIONS" ++ CRLF
      ++ "Access-Control-Allow-Origin: *" ++ CRLF
      ++ "Content-Length: "
      ++ QBA.number (Z.of_nat (String.length (responseBody response))) ++ CRLF
      ++ "Content-Type: application/json" ++ CRLF
      ++ CRLF
      ++ responseBody response.
Proof.
  intros Hown. unfold responseData.
  rewrite (outgoingHeaders_plain response Hown).
  cbv [QBA.size headerLine toUtf8 fst snd map String.concat CRLF].
  repeat (rewrite ?ResponseFacts.append_assoc; cbn [String.append]).
  reflexivity.
Qed.

End BuilderMore.

(** ** The router, continued *)

Section RouterMore.

Context `{QtText} `{QtJson} {Store : Type} `{ControlPlane Store}.
Variable players : PlayerInfo.

Ltac known_answer w :=
  first
    [ eexists; exists (controls w);
      split; [rewrite same_world; reflexivity|];
      split; [unfold knownStatus; simpl; tauto | reflexivity]
    | eexists; eexists;
      split; [reflexivity|];
      split; [unfold knownStatus; simpl; tauto | reflexivity] ].

Lemma handleSetControl_known (group item : QString) (body : QByteArray)
    (w : World Store) :
  exists response after,
    handleSetControl group item body w
    = respond response {| socket := socket w; controls := after |}
    /\ knownStatus response
    /\ responseHeaders response = QMap.empty.
Proof.
  unfold handleSetControl.
  destruct (negb (isObject (fromJson body))); [known_answer w|].
  destruct (negb (QMap.contains "value" (object (fromJson body))));
    [known_answer w|].
  destruct (getControl (controls w) _) as [pControl|]; cbv zeta; known_answer w.
Qed.

Lemma handleGetControl_known (group item : QString) (w : World Store) :
  exists response after,
    handleGetControl group item w
    = respond response {| socket := socket w; controls := after |}
    /\ knownStatus response
    /\ responseHeaders response = QMap.empty.
Proof.
  unfold handleGetControl.
  destruct (getControl (controls w) _); cbv zeta; known_answer w.
Qed.

(** X6. Whatever the request is, the answer is one of 200 OK, 204 No
    Content, 400 Bad Request, 404 Not Found and 405 Method Not Allowed,
    and it is a response without headers of its own (so that its content
    type is [application/json]). *)
Theorem every_answer_has_a_known_status (request : HttpRequest) (w : World Store) :
  exists w' response after,
    handleRequest players request w = Some w'
    /\ w' = respond response {| socket := socket w; controls := after |}
    /\ knownStatus response
    /\ responseHeaders response = QMap.empty.
Proof.
  destruct (String.eqb (method request) "OPTIONS") eqn:Hm.
  - unfold handleRequest. rewrite Hm.
    eexists. eexists. exists (controls w).
    split; [reflexivity|]. split; [now rewrite same_world|].
    split; [unfold knownStatus; simpl; tauto | reflexivity].
  - rewrite handleRequest_parts by exact Hm. cbv zeta.
    destruct (pathPartsOf (path request)) as [|p0 [|p1 [|p2 [|p3 rest]]]];
      cbn [isEmptyList at_index nth_error List.length Nat.ltb Nat.leb];
      repeat (match goal with
              | |- context [String.eqb ?a ?b] => destruct (String.eqb a b)
              end; cbn [andb negb]);
      try (rewrite handleGetPlayer_200);
      try (unfold handleGetStatus);
      first
        [ destruct (handleSetControl_known
                      (bracketed (fromPercentEncoding (toUtf8 p2)))
                      (fromPercentEncoding (toUtf8 p3)) (body request) w)
            as (response & after & -> & Hknown & Hown);
          eexists; exists response, after;
          split; [reflexivity|]; split; [reflexivity|]; split; assumption
        | destruct (handleGetControl_known
                      (bracketed (fromPercentEncoding (toUtf8 p2)))
                      (fromPercentEncoding (toUtf8 p3)) w)
            as (response & after & -> & Hknown & Hown);
          eexists; exists response, after;
          split; [reflexivity|]; split; [reflexivity|]; split; assumption
        | eexists; eexists; exists (controls w);
          split; [reflexivity|]; split; [now rewrite same_world|];
          split; [unfold knownStatus; simpl; tauto | reflexivity] ].
Qed.

(** X7. A path whose first part is not [api], or that has no part at
    all, is answered 404 with [{error, message}] whatever the method is,
    [OPTIONS] apart. *)
Theorem outside_api_is_404 (request : HttpRequest) (w : World Store) :
  method request <> "OPTIONS" ->
  hd_error (pathPartsOf (path request)) <> Some "api" ->
  handleRequest players request w = Some (respond notUnderApi w).
Proof.
  intros Hm Hfirst. apply String.eqb_neq in Hm.
  rewrite handleRequest_parts by exact Hm. cbv zeta.
  destruct (pathPartsOf (path request)) as [|p0 rest]; [reflexivity|].
  cbn [isEmptyList at_index nth_error].
  destruct (String.eqb_spec p0 "api") as [->|Hp0]; [now elim Hfirst | reflexivity].
Qed.

(** X8. A path that is [api] alone is answered 400 whatever the method
    is, [OPTIONS] apart. *)
Theorem api_alone_is_400 (request : HttpRequest) (w : World Store) :
  method request <> "OPTIONS" ->
  pathPartsOf (path request) = ["api"] ->
  handleRequest players request w
  = Some (respond {| statusCode := 400; statusText := "Bad Request";
                     responseHeaders := QMap.empty;
                     responseBody := toJson [("error", JString "Bad Request")] |} w).
Proof.
  intros Hm Hparts. apply String.eqb_neq in Hm.
  rewrite handleRequest_parts by exact Hm. now rewrite Hparts.
Qed.

(** X9. Under [/api], what is not a GET of [status], a GET of [player]
    with a group, or [control] with a group and an item, is answered 404
    "Endpoint not found": so are the other methods on [status] and
    [player], [player] without a group, and [control] without an item
    whatever the method is. *)
Theorem no_endpoint_is_404 (request : HttpRequest) (w : World Store)
    (endpoint : QString) (args : list QString) :
  method request <> "OPTIONS" ->
  pathPartsOf (path request) = "api" :: endpoint :: args ->
  (endpoint = "status" -> method request <> "GET") ->
  (endpoint = "player" -> args = [] \/ method request <> "GET") ->
  (endpoint = "control" -> (List.length args < 2)%nat) ->
  handleRequest players request w = Some (respond endpointNotFound w).
Proof.
  intros Hm Hparts Hstatus Hplayer Hcontrol. apply String.eqb_neq in Hm.
  rewrite handleRequest_parts by exact Hm. rewrite Hparts. cbv zeta.
  cbn [isEmptyList at_index nth_error List.length Nat.ltb Nat.leb
       String.eqb Ascii.eqb Bool.eqb negb].
  destruct (String.eqb_spec endpoint "status") as [->|_].
  - specialize (Hstatus eq_refl). apply String.eqb_neq in Hstatus.
    rewrite Hstatus. reflexivity.
  - cbn [andb]. destruct (String.eqb_spec endpoint "player") as [->|_].
    + destruct (Hplayer eq_refl) as [-> | Hget]; [reflexivity|].
      apply String.eqb_neq in Hget. rewrite Hget.
      rewrite Bool.andb_false_r. reflexivity.
    + cbn [andb]. destruct (String.eqb_spec endpoint "control") as [->|_];
        [|reflexivity].
      specialize (Hcontrol eq_refl).
      destruct args as [|a [|b args]]; simpl in Hcontrol; try lia; reflexivity.
Qed.

(** X10. A POST to [/api/control/{group}/{item}] with a body that has a
    [value], for a control that does not exist, is answered 404 with
    [{error, group, item}], and nothing is written. *)
Theorem set_control_absent_is_404 (request : HttpRequest) (w : World Store)
    (g i : QString) (rest : list QString)
    (requestJson : QJsonObject) (value : QJsonValue) :
  method request = "POST" ->
  pathPartsOf (path request) = "api" :: "control" :: g :: i :: rest ->
  let group := bracketed (fromPercentEncoding (toUtf8 g)) in
  let item := fromPercentEncoding (toUtf8 i) in
  fromJson (body request) = DocObject requestJson ->
  QMap.lookup "value" requestJson = Some value ->
  getControl (controls w) {| group := group; item := item |} = None ->
  handleRequest players request w
  = Some (respond {| statusCode := 404; statusText := "Not Found";
                     responseHeaders := QMap.empty;
                     responseBody :=
                       toJson [("error", JString "Control not found");
                               ("group", JString group);
                               ("item", JString item)] |} w).
Proof.
  intros Hm Hparts group item Hdoc Hvalue Hcontrol.
  rewrite (route_control players request w g i rest) by (rewrite ?Hm; auto).
  rewrite Hm. cbn [String.eqb Ascii.eqb Bool.eqb]. cbv zeta.
  unfold handleSetControl. rewrite Hdoc. cbn [isObject negb object].
  unfold QMap.contains. rewrite Hvalue. cbn [negb].
  fold group item. rewrite Hcontrol. reflexivity.
Qed.

(** [handleSetControl] leaves the store as it is unless it reaches the
    write. *)
Lemma handleSetControl_changed (group item : QString) (body : QByteArray)
    (w : World Store) :
  controls (handleSetControl group item body w) <> controls w ->
  exists requestJson value pControl,
    fromJson body = DocObject requestJson
    /\ QMap.lookup "value" requestJson = Some value
    /\ getControl (controls w) {| group := group; item := item |} = Some pControl
    /\ controls (handleSetControl group item body w)
       = set pControl (toDouble value) (controls w).
Proof.
  unfold handleSetControl.
  destruct (fromJson body) as [| |requestJson] eqn:Hdoc;
    cbn [isObject negb object]; try (intros Hchanged; now elim Hchanged).
  unfold QMap.contains, valueOf.
  destruct (QMap.lookup "value" requestJson) as [value|] eqn:Hvalue;
    cbn [negb]; [|intros Hchanged; now elim Hchanged].
  destruct (getControl (controls w) _) as [pControl|] eqn:Hcontrol;
    [|intros Hchanged; now elim Hchanged].
  intros _. exists requestJson, value, pControl.
  repeat (split; [first [reflexivity | assumption]|]).
  cbv zeta. reflexivity.
Qed.

(** X11. The control store is written by nothing but a POST to
    [/api/control/{group}/{item}] whose body is an object with a [value]
    and whose control exists: a request after which the store is not what
    it was is such a POST, and the store is the one after that write. *)
Theorem only_post_to_control_writes (request : HttpRequest) (w w' : World Store) :
  handleRequest players request w = Some w' ->
  controls w' <> controls w ->
  method request = "POST"
  /\ exists g i rest requestJson value pControl,
       pathPartsOf (path request) = "api" :: "control" :: g :: i :: rest
       /\ fromJson (body request) = DocObject requestJson
       /\ QMap.lookup "value" requestJson = Some value
       /\ getControl (controls w)
            {| group := bracketed (fromPercentEncoding (toUtf8 g));
               item := fromPercentEncoding (toUtf8 i) |} = Some pControl
       /\ controls w' = set pControl (toDouble value) (controls w).
Proof.
  destruct (String.eqb (method request) "OPTIONS") eqn:Hm.
  { unfold handleRequest. rewrite Hm.
    intros [= <-] Hchanged. now elim Hchanged. }
  rewrite handleRequest_parts by exact Hm. cbv zeta.
  destruct (pathPartsOf (path request)) as [|p0 [|p1 [|p2 [|p3 rest]]]];
    cbn [isEmptyList at_index nth_error List.length Nat.ltb Nat.leb];
    repeat (match goal with
            | |- context [String.eqb ?a ?b] =>
                let Hk := fresh "Hk" in
                destruct (String.eqb_spec a b) as [Hk|Hk]
            end; cbn [andb negb]);
    intros [= <-] Hchanged;
    try (exfalso; apply Hchanged;
         first [ reflexivity
               | rewrite handleGetPlayer_200; reflexivity
               | unfold handleGetControl;
                 destruct (getControl (controls w) _); reflexivity ]);
    subst; try discriminate.
  all: split; [assumption|].
  all: destruct (handleSetControl_changed _ _ _ _ Hchanged)
         as (requestJson & value & pControl & Hdoc & Hvalue & Hcontrol & Hafter).
  all: exists p2, p3, rest, requestJson, value, pControl; repeat split; assumption.
Qed.

(** X12. The headers of a request are not looked at: two requests with
    the same method, path and body are handled alike. *)
Theorem request_headers_are_ignored (request1 request2 : HttpRequest)
    (w : World Store) :
  method request1 = method request2 ->
  path request1 = path request2 ->
  body request1 = body request2 ->
  handleRequest players request1 w = handleRequest players request2 w.
Proof.
  intros Hm Hp Hb. unfold handleRequest, handleGetStatus.
  rewrite Hm, Hp, Hb. reflexivity.
Qed.

End RouterMore.

(** ** The parts of a path and the query string *)

Module PathFacts.

Lemma indexOf_lower (c : ascii) (s : QByteArray) : (-1 <= QBA.indexOf c s)%Z.
Proof.
  induction s as [|a s IH]; simpl; [lia|].
  destruct (Ascii.eqb a c); [lia|].
  destruct (QBA.indexOf c s <? 0)%Z eqn:Hr; [lia|].
  apply Z.ltb_ge in Hr. lia.
Qed.

Lemma indexOf_absent_cons (c a : ascii) (s : QByteArray) :
  QBA.indexOf c (String a s) = (-1)%Z <->
  Ascii.eqb a c = false /\ QBA.indexOf c s = (-1)%Z.
Proof.
  simpl. pose proof (indexOf_lower c s) as Hlow.
  destruct (Ascii.eqb a c).
  - split; [discriminate | intros [? _]; discriminate].
  - destruct (QBA.indexOf c s <? 0)%Z eqn:Hr.
    + apply Z.ltb_lt in Hr. split; [intros _; split; [reflexivity | lia] | reflexivity].
    + apply Z.ltb_ge in Hr. split; [lia | intros [_ Heq]; lia].
Qed.

(** A byte array without the separator is one field. *)
Lemma split_absent (sep : ascii) (q : QByteArray) :
  QBA.indexOf sep q = (-1)%Z -> QBA.split sep q = [q].
Proof.
  induction q as [|a q IH]; intros Habs; [reflexivity|].
  apply indexOf_absent_cons in Habs. destruct Habs as [Ha Hq].
  simpl. rewrite Ha, (IH Hq). reflexivity.
Qed.

(** Bytes without the separator, put after a byte array, go to its last
    field. *)
Lemma split_app_absent (sep : ascii) (p q : QByteArray) :
  QBA.indexOf sep q = (-1)%Z ->
  QBA.split sep (p ++ q) = updateLast (fun l => l ++ q) (QBA.split sep p).
Proof.
  intros Habs. induction p as [|a p IH].
  - simpl. now rewrite split_absent.
  - simpl. rewrite IH. pose proof (QBAFacts.split_not_nil sep p) as Hne.
    destruct (QBA.split sep p) as [|f [|g fs]]; [contradiction| |];
      destruct (Ascii.eqb a sep); reflexivity.
Qed.

(** A character that is not in a byte array is in none of its fields. *)
Lemma split_keeps_absent (c sep : ascii) (p : QByteArray) :
  QBA.indexOf c p = (-1)%Z ->
  Forall (fun field => QBA.indexOf c field = (-1)%Z) (QBA.split sep p).
Proof.
  induction p as [|a p IH]; intros Habs.
  - repeat constructor.
  - apply indexOf_absent_cons in Habs. destruct Habs as [Ha Hp].
    specialize (IH Hp). simpl.
    destruct (Ascii.eqb a sep).
    + constructor; [reflexivity | exact IH].
    + destruct (QBA.split sep p) as [|f fs].
      * constructor; [|constructor]. apply indexOf_absent_cons. now split.
      * inversion IH as [|? ? Hf Hfs]; subst.
        constructor; [|exact Hfs]. apply indexOf_absent_cons. now split.
Qed.

Lemma updateLast_snoc {A} (f : A -> A) (l : list A) (x : A) :
  updateLast f (l ++ [x]) = (l ++ [f x])%list.
Proof.
  induction l as [|y l IH]; [reflexivity|].
  simpl app. simpl updateLast. rewrite IH.
  destruct (l ++ [x])%list eqn:Hl; [|reflexivity].
  now destruct l.
Qed.

Lemma updateLast_fixed {A} (f : A -> A) (l : list A) :
  Forall (fun x => f x = x) l -> updateLast f l = l.
Proof.
  induction 1 as [|x l Hx Hl IH]; [reflexivity|].
  simpl. rewrite IH. destruct l; [now rewrite Hx | reflexivity].
Qed.

Lemma stripQuery_without (part : QString) :
  QBA.indexOf "?" part = (-1)%Z -> stripQuery part = part.
Proof. intros Habs. unfold stripQuery. now rewrite Habs. Qed.

Lemma indexOf_first (c : ascii) (l q : QByteArray) :
  QBA.indexOf c l = (-1)%Z ->
  QBA.indexOf c (l ++ String c q) = Z.of_nat (String.length l).
Proof.
  induction l as [|a l IH]; intros Habs.
  - simpl. now rewrite Ascii.eqb_refl.
  - apply indexOf_absent_cons in Habs. destruct Habs as [Ha Hl].
    simpl String.append. simpl QBA.indexOf. rewrite Ha, (IH Hl).
    destruct (Z.of_nat (String.length l) <? 0)%Z eqn:Hneg.
    + apply Z.ltb_lt in Hneg. lia.
    + simpl String.length. lia.
Qed.

Lemma take_app (l r : QByteArray) : QBA.take (String.length l) (l ++ r) = l.
Proof.
  induction l as [|a l IH]; simpl.
  - now destruct r.
  - now rewrite IH.
Qed.

(** The query string is cut from a part. *)
Lemma stripQuery_cuts (part q : QString) :
  QBA.indexOf "?" part = (-1)%Z -> stripQuery (part ++ String "?" q) = part.
Proof.
  intros Habs. unfold stripQuery. rewrite (indexOf_first _ _ _ Habs).
  destruct (0 <=? Z.of_nat (String.length part))%Z eqn:Hpos.
  - unfold QBA.left. rewrite Nat2Z.id. apply take_app.
  - apply Z.leb_gt in Hpos. lia.
Qed.

Lemma pathPartsOf_updateLast (path : QString) :
  pathPartsOf path = updateLast stripQuery (splitSkipEmptyParts "/" path).
Proof.
  unfold pathPartsOf. now destruct (splitSkipEmptyParts "/" path).
Qed.

Lemma filter_snoc {A} (keep : A -> bool) (l : list A) (x : A) :
  filter keep (l ++ [x]) = (filter keep l ++ if keep x then [x] else [])%list.
Proof. now rewrite filter_app. Qed.

End PathFacts.

Section QueryString.

Context `{QtText} `{QtJson} {Store : Type} `{ControlPlane Store}.
Variable players : PlayerInfo.

(** The parts of a path followed by a query string that has no slash:
    the parts of the path, and one empty part more when the path ends
    with a slash (or is empty). *)
Lemma pathPartsOf_query (p q : QString) :
  QBA.indexOf "?" p = (-1)%Z ->
  QBA.indexOf "/" q = (-1)%Z ->
  pathPartsOf (p ++ String "?" q)
  = if QBA.isEmpty (last (QBA.split "/" p) "")
    then (pathPartsOf p ++ [""])%list
    else pathPartsOf p.
Proof.
  intros Hp Hq.
  assert (Hq' : QBA.indexOf "/" (String "?" q) = (-1)%Z)
    by (apply PathFacts.indexOf_absent_cons; now split).
  pose proof (PathFacts.split_keeps_absent "?" "/" p Hp) as Hfields.
  rewrite !PathFacts.pathPartsOf_updateLast. unfold splitSkipEmptyParts.
  rewrite (PathFacts.split_app_absent "/" p _ Hq').
  destruct (exists_last (QBAFacts.split_not_nil "/" p)) as (init & lst & Hsplit).
  rewrite Hsplit in *. rewrite last_last.
  apply Forall_app in Hfields. destruct Hfields as [Hinit Hlst].
  inversion Hlst as [|? ? Hlst' _]; subst.
  rewrite PathFacts.updateLast_snoc, !PathFacts.filter_snoc.
  assert (Hkept : updateLast stripQuery
                    (filter (fun part => negb (QBA.isEmpty part)) init)
                  = filter (fun part => negb (QBA.isEmpty part)) init).
  { apply PathFacts.updateLast_fixed. apply Forall_forall.
    intros part Hin. apply filter_In in Hin. destruct Hin as [Hin _].
    apply PathFacts.stripQuery_without.
    rewrite Forall_forall in Hinit. now apply Hinit. }
  replace (negb (QBA.isEmpty (lst ++ String "?" q))) with true
    by (now destruct lst).
  rewrite PathFacts.updateLast_snoc, (PathFacts.stripQuery_cuts _ _ Hlst').
  destruct lst as [|a lst]; cbn [QBA.isEmpty negb].
  - rewrite app_nil_r, Hkept. reflexivity.
  - rewrite PathFacts.updateLast_snoc,
      (PathFacts.stripQuery_without _ Hlst').
    reflexivity.
Qed.

(** Requests with the same method, body and parts of the path are
    handled alike. *)
Lemma handleRequest_same_parts (request1 request2 : HttpRequest) (w : World Store) :
  method request1 = method request2 ->
  body request1 = body request2 ->
  pathPartsOf (path request1) = pathPartsOf (path request2) ->
  handleRequest players request1 w = handleRequest players request2 w.
Proof.
  intros Hm Hb Hparts.
  destruct (String.eqb (method request1) "OPTIONS") eqn:Ho.
  - unfold handleRequest. rewrite <- Hm, Ho. reflexivity.
  - rewrite !handleRequest_parts by (rewrite <- ?Hm; exact Ho).
    rewrite <- Hm, <- Hb, <- Hparts. reflexivity.
Qed.

(** X13. A query string is not part of the route: a request whose path
    is followed by [?] and a query without a slash is handled as the
    request without it, when the path does not end with a slash.  (When
    it does, the query leaves an empty part behind: [/api/?x] is routed as
    [api] and an empty endpoint.) *)
Theorem query_string_is_ignored (request1 request2 : HttpRequest)
    (query : QString) (w : World Store) :
  method request1 = method request2 ->
  body request1 = body request2 ->
  path request2 = path request1 ++ String "?" query ->
  QBA.indexOf "?" (path request1) = (-1)%Z ->
  QBA.indexOf "/" query = (-1)%Z ->
  last (QBA.split "/" (path request1)) "" <> "" ->
  pathPartsOf (path request2) = pathPartsOf (path request1)
  /\ handleRequest players request2 w = handleRequest players request1 w.
Proof.
  intros Hm Hb Hpath Hp Hq Hlast.
  assert (Hparts : pathPartsOf (path request2) = pathPartsOf (path request1)).
  { rewrite Hpath, (pathPartsOf_query _ _ Hp Hq).
    destruct (last (QBA.split "/" (path request1)) ""); [now elim Hlast | reflexivity]. }
  split; [exact Hparts|].
  now apply handleRequest_same_parts.
Qed.

End QueryString.

Section QueryAfterSlash.

Context `{QtText} `{QtJson} {Store : Type} `{ControlPlane Store}.
Variable players : PlayerInfo.

(** X14. After a path that ends with a slash, the query string leaves an
    empty last part: [/api/] followed by a query string is not the 400 of
    [/api/] but the 404 of an endpoint that does not exist. *)
Theorem query_after_slash_is_a_part (request : HttpRequest) (p query : QString)
    (w : World Store) :
  method request <> "OPTIONS" ->
  path request = p ++ String "?" query ->
  QBA.indexOf "?" p = (-1)%Z ->
  QBA.indexOf "/" query = (-1)%Z ->
  last (QBA.split "/" p) "" = "" ->
  pathPartsOf p = ["api"] ->
  pathPartsOf (path request) = ["api"; ""]
  /\ handleRequest players request w = Some (respond endpointNotFound w).
Proof.
  intros Hm Hpath Hp Hq Hlast Hparts.
  assert (Hrouted : pathPartsOf (path request) = ["api"; ""]).
  { rewrite Hpath, (pathPartsOf_query _ _ Hp Hq), Hlast, Hparts. reflexivity. }
  split; [exact Hrouted|].
  apply String.eqb_neq in Hm.
  rewrite handleRequest_parts by exact Hm. rewrite Hrouted. reflexivity.
Qed.

End QueryAfterSlash.

(** ** Status objects, continued *)

Section StatusMore.

Context {Store : Type} `{ControlPlane Store}.
Variable players : PlayerInfo.

(** X15. The status object of a group has fourteen keys.  [track] is
    null when the registry has no track for the group and the metadata
    object, of thirteen keys, when it has one; each of the thirteen
    controls is null when the control does not exist and the number it
    holds when it does. *)
Theorem player_status_object (store : Store) (group : QString) :
  QMap.keys (getPlayerStatus players store group)
  = ["bpm"; "duration"; "keylock"; "loop_enabled"; "play"; "play_indicator";
     "playposition"; "pregain"; "rate"; "repeat"; "tempo_ratio"; "track";
     "track_loaded"; "volume"]
  /\ QMap.lookup "track" (getPlayerStatus players store group)
     = Some match getTrackInfo players group with
            | Some track => JObject (getTrackMetadata (Some track))
            | None => JNull
            end
  /\ Forall
       (fun item =>
          QMap.lookup item (getPlayerStatus players store group)
          = Some match getControl store {| group := group; item := item |} with
                 | Some pControl => JDouble (get store pControl)
                 | None => JNull
                 end)
       ["play"; "play_indicator"; "playposition"; "duration"; "volume"; "pregain";
        "bpm"; "rate"; "tempo_ratio"; "keylock"; "repeat"; "loop_enabled";
        "track_loaded"]
  /\ getTrackMetadata None = QMap.empty
  /\ forall track,
       getTrackMetadata (Some track)
       = [("album", JString (getAlbum track));
          ("album_artist", JString (getAlbumArtist track));
          ("artist", JString (getArtist track));
          ("bpm", JDouble (getBpm track));
          ("comment", JString (getComment track));
          ("composer", JString (getComposer track));
          ("duration", JDouble (getDuration track));
          ("file_type", JString (getType track));
          ("genre", JString (getGenre track));
          ("key", JString (getKeyText track));
          ("location", JString (getLocation track));
          ("title", JString (getTitle track));
          ("year", JString (getYear track))].
Proof.
  split; [apply getPlayerStatus_keys|].
  split; [unfold getPlayerStatus; destruct (getTrackInfo players group); reflexivity|].
  split; [|split; [reflexivity | intros track; reflexivity]].
  unfold getPlayerStatus, getControlValue.
  destruct (getTrackInfo players group); repeat constructor.
Qed.

Lemma fold_appendPlayer_map (store : Store) (entries : QMap.t TrackPointer) :
  forall acc,
    fold_left (appendPlayer players store) entries acc
    = (acc ++ map (fun entry =>
                     JObject (QMap.insert "group" (JString (fst entry))
                                (getPlayerStatus players store (fst entry))))
                  entries)%list.
Proof.
  induction entries as [|entry entries IH]; intros acc; simpl.
  - now rewrite app_nil_r.
  - rewrite IH. unfold appendPlayer. now rewrite <- app_assoc.
Qed.

(** X16. The [players] of the status of all players are, in the order of
    the loaded tracks, the status object of each loaded group with the
    key [group] added, fifteen keys in all; the status is the one of the
    group's name, the track of the entry is not looked at. *)
Theorem all_players_status_lists_groups (store : Store) :
  QMap.lookup "players" (getAllPlayersStatus players store)
  = Some (JArray
            (map (fun entry =>
                    JObject (QMap.insert "group" (JString (fst entry))
                               (getPlayerStatus players store (fst entry))))
                 (getLoadedTracks players)))
  /\ forall group,
       QMap.keys (QMap.insert "group" (JString group)
                    (getPlayerStatus players store group))
       = ["bpm"; "duration"; "group"; "keylock"; "loop_enabled"; "play";
          "play_indicator"; "playposition"; "pregain"; "rate"; "repeat";
          "tempo_ratio"; "track"; "track_loaded"; "volume"]
       /\ QMap.lookup "group" (QMap.insert "group" (JString group)
                                 (getPlayerStatus players store group))
          = Some (JString group).
Proof.
  split.
  - unfold getAllPlayersStatus. rewrite fold_appendPlayer_map. reflexivity.
  - intros group. split; [|apply QMapFacts.lookup_insert].
    unfold getPlayerStatus. destruct (getTrackInfo players group); reflexivity.
Qed.

End StatusMore.

(** ** From the bytes read to the response *)

Section ClientData.

Context `{QtText} `{QtJson} {Store : Type} `{ControlPlane Store}.
Variable players : PlayerInfo.


(** X18. Bytes whose first line has fewer than two fields are answered
    404, as a path that is not under [/api]: the request has no method
    and no path. *)
Theorem malformed_request_line_is_404 (data line0 : QByteArray)
    (rest : list QByteArray) (w : World Store) (s : QTcpSocket) :
  socket w = Some s ->
  data <> "" ->
  QBA.split LF data = line0 :: rest ->
  (List.length (QBA.split " " (QBA.trimmed line0)) < 2)%nat ->
  handleClientData players data w = Some (respond notUnderApi w).
Proof.
  intros Hsocket Hdata Hsplit Hfew.
  unfold handleClientData. rewrite Hsocket.
  destruct (QBA.isEmpty data) eqn:He;
    [apply QBAFacts.isEmpty_true in He; contradiction|].
  destruct (parseHttpRequest_lines data line0 rest Hsplit)
    as (headerEndIndex & hdrs & _ & ->).
  assert (Hline : requestLineOf line0 = ("", "")).
  { unfold requestLineOf.
    destruct (QBA.split " " (QBA.trimmed line0)) as [|token0 [|token1 tokens]];
      simpl in Hfew; try reflexivity. lia. }
  rewrite Hline. reflexivity.
Qed.

(** X19. On a socket that cannot be written to, and without a socket,
    handling a request leaves the socket as it is: nothing is written and
    the connection is not closed. *)
Theorem unwritable_socket_is_left_alone (request : HttpRequest) (w : World Store) :
  (forall s, socket w = Some s -> isWritable s = false) ->
  exists w', handleRequest players request w = Some w' /\ socket w' = socket w.
Proof.
  intros Hguard.
  destruct (handleRequest_once players request w)
    as (w' & Hhandle & response & after & -> & _).
  eexists. split; [exact Hhandle|].
  cbn [respond socket]. destruct (socket w) as [s|]; [|reflexivity].
  unfold sendHttpResponse. now rewrite (Hguard s eq_refl).
Qed.

End ClientData.

(** ** The listener *)

Module ListenerFacts.


(** X21. A server that does not run starts when the listen succeeds; it
    then refuses a second start, whatever the listen would do, and keeps
    its port; [stop] stops it, keeps the port that was reported, and does
    nothing the second time; after [stop] the server starts again. *)
Theorem start_stop_cycle (server : RestApiServer) (port1 bound1 : Z) :
  isListening server = false ->
  let running := snd (start port1 (Some bound1) server) in
  fst (start port1 (Some bound1) server) = true
  /\ isRunning running = true
  /\ port running = bound1
  /\ (forall port2 bound2, start port2 bound2 running = (false, running))
  /\ isRunning (stop running) = false
  /\ port (stop running) = bound1
  /\ stop (stop running) = stop running
  /\ (forall port3 bound3,
        start port3 (Some bound3) (stop running)
        = (true, {| isListening := true; m_port := bound3 |}))
  /\ (forall port3, start port3 None (stop running) = (false, stop running)).
Proof.
  intros Hidle running. unfold running, start, stop, isRunning, port.
  rewrite Hidle. simpl. repeat split.
Qed.

End ListenerFacts.

(** ** The server on more examples *)

Module MoreExamples.

Import Doubles.

Definition answer (registry : PlayerInfo) (r : HttpRequest) (w : World Controls)
    : option (World Controls) :=
  @handleRequest plainText keysOnly Controls clamping registry r w.

Definition receive (data : QByteArray) (w : World Controls)
    : option (World Controls) :=
  @handleClientData plainText keysOnly Controls clamping noPlayers data w.

Definition parse (data : QByteArray) : option HttpRequest :=
  @parseHttpRequest plainText data.

(** [GET /x HTTP/1.1], two [Host] headers, a line without a colon, an
    empty line and two lines of body. *)
Definition twoHosts : QByteArray :=
  "GET /x HTTP/1.1" ++ String LF ("Host: a" ++ String LF ("Host: b" ++ String LF
    ("noise" ++ String LF (String LF ("first" ++ String LF "second"))))).

Definition closedSocket : QTcpSocket :=
  {| isWritable := false; written := []; disconnectRequested := false |}.

Lemma parsed_headers_last_wins_witness :
  exists r,
    parse twoHosts = Some r
    /\ QMap.lookup "Host" (headers r) = Some "b"
    /\ QMap.lookup "noise" (headers r) = None.
Proof.
  destruct (@parsed_headers_last_wins plainText twoHosts "GET /x HTTP/1.1"
              ["Host: a"; "Host: b"; "noise"] "" ["first"; "second"])
    as (r & Hparse & Hlookup).
  - reflexivity.
  - repeat constructor; unfold blank; simpl; discriminate.
  - reflexivity.
  - exists r. split; [exact Hparse|].
    split; [exact (Hlookup "Host") | exact (Hlookup "noise")].
Defined.

Lemma parsed_body_verbatim_witness :
  exists r,
    parse twoHosts = Some r
    /\ twoHosts
       = QBA.join LF ["GET /x HTTP/1.1"; "Host: a"; "Host: b"; "noise"; ""]
           ++ String LF (body r).
Proof.
  apply (@parsed_body_verbatim plainText twoHosts "GET /x HTTP/1.1"
           ["Host: a"; "Host: b"; "noise"] "" ["first"; "second"]).
  - reflexivity.
  - repeat constructor; unfold blank; simpl; discriminate.
  - reflexivity.
  - discriminate.
Defined.

Lemma parsed_request_line_witness :
  exists r, parse twoHosts = Some r /\ method r = "GET" /\ path r = "/x".
Proof.
  apply (@parsed_request_line plainText twoHosts "GET /x HTTP/1.1"
           ["Host: a"; "Host: b"; "noise"; ""; "first"; "second"]
           "GET" "/x" ["HTTP/1.1"]); reflexivity.
Defined.

Lemma own_headers_are_sent_witness :
  sentWith {| statusCode := 200; statusText := "OK";
              responseHeaders := [("X-Served-By", "mixxx")];
              responseBody := "{}" |}
           "X-Served-By" "mixxx".
Proof.
  apply own_headers_are_sent; [|reflexivity].
  simpl. intros [Hk|[Hk|[Hk|[Hk|[Hk|[]]]]]]; discriminate.
Defined.

Lemma response_bytes_witness :
  responseData {| statusCode := 204; statusText := "No Content";
                  responseHeaders := QMap.empty; responseBody := "" |}
  = "HTTP/1.1 204 No Content" ++ CRLF
      ++ "Access-Control-Allow-Headers: Content-Type" ++ CRLF
      ++ "Access-Control-Allow-Methods: GET, POST, OPTIONS" ++ CRLF
      ++ "Access-Control-Allow-Origin: *" ++ CRLF
      ++ "Content-Length: 0" ++ CRLF
      ++ "Content-Type: application/json" ++ CRLF
      ++ CRLF.
Proof.
  apply (response_bytes {| statusCode := 204; statusText := "No Content";
                           responseHeaders := QMap.empty; responseBody := "" |}).
  reflexivity.
Defined.

Lemma outside_api_is_404_witness :
  answer noPlayers (request "GET" "/status" "") (world oneControl)
  = Some (respond (@notUnderApi keysOnly) (world oneControl)).
Proof.
  apply (@outside_api_is_404 plainText keysOnly Controls clamping noPlayers);
    discriminate.
Defined.

Lemma api_alone_is_400_witness :
  answer noPlayers (request "DELETE" "/api/" "") (world oneControl)
  = Some (respond {| statusCode := 400; statusText := "Bad Request";
                     responseHeaders := QMap.empty;
                     responseBody := @toJson keysOnly [("error", JString "Bad Request")] |}
                  (world oneControl)).
Proof.
  apply (@api_alone_is_400 plainText keysOnly Controls clamping noPlayers);
    [discriminate | reflexivity].
Defined.

Lemma no_endpoint_is_404_witness :
  answer noPlayers (request "POST" "/api/status" "") (world oneControl)
  = Some (respond (@endpointNotFound keysOnly) (world oneControl))
  /\ answer noPlayers (request "GET" "/api/player" "") (world oneControl)
     = Some (respond (@endpointNotFound keysOnly) (world oneControl))
  /\ answer noPlayers (request "GET" "/api/control/Channel1" "") (world oneControl)
     = Some (respond (@endpointNotFound keysOnly) (world oneControl)).
Proof.
  split; [|split].
  - apply (@no_endpoint_is_404 plainText keysOnly Controls clamping noPlayers
             (request "POST" "/api/status" "") (world oneControl) "status" []);
      try discriminate; reflexivity.
  - apply (@no_endpoint_is_404 plainText keysOnly Controls clamping noPlayers
             (request "GET" "/api/player" "") (world oneControl) "player" []);
      try discriminate; try reflexivity. intros _. now left.
  - apply (@no_endpoint_is_404 plainText keysOnly Controls clamping noPlayers
             (request "GET" "/api/control/Channel1" "") (world oneControl)
             "control" ["Channel1"]);
      try discriminate; try reflexivity. intros _. simpl. lia.
Defined.

Lemma set_control_absent_is_404_witness :
  answer noPlayers (request "POST" "/api/control/Channel2/volume" (valueBody "0.5"))
    (world oneControl)
  = Some (respond {| statusCode := 404; statusText := "Not Found";
                     responseHeaders := QMap.empty;
                     responseBody :=
                       @toJson keysOnly
                         [("error", JString "Control not found");
                          ("group", JString "[Channel2]");
                          ("item", JString "volume")] |} (world oneControl)).
Proof.
  apply (@set_control_absent_is_404 plainText keysOnly Controls clamping noPlayers
           (request "POST" "/api/control/Channel2/volume" (valueBody "0.5"))
           (world oneControl) "Channel2" "volume" []
           [("value", JDouble 0.5)] (JDouble 0.5)); reflexivity.
Defined.

Lemma only_post_to_control_writes_witness :
  exists g i rest requestJson value pControl,
    pathPartsOf "/api/control/Channel1/volume" = "api" :: "control" :: g :: i :: rest
    /\ @fromJson keysOnly (valueBody "2") = DocObject requestJson
    /\ QMap.lookup "value" requestJson = Some value
    /\ @getControl Controls clamping oneControl
         {| group := bracketed g; item := i |} = Some pControl
    /\ [(channel1Volume, 1%float)]
       = @set Controls clamping pControl (toDouble value) oneControl.
Proof.
  apply (@only_post_to_control_writes plainText keysOnly Controls clamping noPlayers
           (request "POST" "/api/control/Channel1/volume" (valueBody "2"))
           (world oneControl)
           match answer noPlayers
                   (request "POST" "/api/control/Channel1/volume" (valueBody "2"))
                   (world oneControl) with
           | Some after => after
           | None => world oneControl
           end).
  - reflexivity.
  - simpl. intros Heq.
    apply (f_equal (fun store =>
                      match store with
                      | [(_, v)] => PrimFloat.eqb v 1
                      | _ => true
                      end)) in Heq.
    vm_compute in Heq. discriminate.
Defined.

Lemma request_headers_are_ignored_witness :
  answer noPlayers
    {| method := "GET"; path := "/api/status";
       headers := [("content-length", "5")]; body := "" |} (world oneControl)
  = answer noPlayers (request "GET" "/api/status" "") (world oneControl).
Proof.
  apply (@request_headers_are_ignored plainText keysOnly Controls clamping noPlayers);
    reflexivity.
Defined.

Lemma query_string_is_ignored_witness :
  pathPartsOf "/api/status?verbose=1" = pathPartsOf "/api/status"
  /\ answer noPlayers (request "GET" "/api/status?verbose=1" "") (world oneControl)
     = answer noPlayers (request "GET" "/api/status" "") (world oneControl).
Proof.
  apply (@query_string_is_ignored plainText keysOnly Controls clamping noPlayers
           (request "GET" "/api/status" "") (request "GET" "/api/status?verbose=1" "")
           "verbose=1" (world oneControl));
    try reflexivity. discriminate.
Defined.

Lemma query_after_slash_is_a_part_witness :
  pathPartsOf "/api/?verbose=1" = ["api"; ""]
  /\ answer noPlayers (request "GET" "/api/?verbose=1" "") (world oneControl)
     = Some (respond (@endpointNotFound keysOnly) (world oneControl)).
Proof.
  apply (@query_after_slash_is_a_part plainText keysOnly Controls clamping noPlayers
           (request "GET" "/api/?verbose=1" "") "/api/" "verbose=1" (world oneControl));
    try reflexivity. discriminate.
Defined.


Lemma malformed_request_line_is_404_witness :
  receive "PING" (world oneControl)
  = Some (respond (@notUnderApi keysOnly) (world oneControl)).
Proof.
  apply (@malformed_request_line_is_404 plainText keysOnly Controls clamping noPlayers
           "PING" "PING" [] (world oneControl) openSocket);
    try reflexivity; [discriminate | simpl; lia].
Defined.

Lemma unwritable_socket_is_left_alone_witness :
  exists w',
    answer noPlayers (request "GET" "/api/status" "")
      {| socket := Some closedSocket; controls := oneControl |} = Some w'
    /\ socket w' = Some closedSocket.
Proof.
  apply (@unwritable_socket_is_left_alone plainText keysOnly Controls clamping noPlayers
           (request "GET" "/api/status" "")
           {| socket := Some closedSocket; controls := oneControl |}).
  intros s [= <-]. reflexivity.
Defined.


Lemma start_stop_cycle_witness :
  start 8080 (Some 8080%Z) newRestApiServer
  = (true, {| isListening := true; m_port := 8080 |})
  /\ port (stop (snd (start 8080 (Some 8080%Z) newRestApiServer))) = 8080%Z.
Proof.
  destruct (ListenerFacts.start_stop_cycle newRestApiServer 8080 8080 eq_refl)
    as (Hstarted & _ & _ & _ & _ & Hport & _).
  split; [|exact Hport].
  unfold start in *. simpl in *. reflexivity.
Defined.

End MoreExamples.

(** ** A header block that is not closed *)

Section OpenHeaderBlock.

Context `{QtText}.

(** X22. When no line after the request line is blank, the lines after
    the request line are read as headers and the same lines, joined with
    line feed, are the body as well. *)
Theorem open_header_block_is_body_too (data line0 : QByteArray)
    (hdrLines : list QByteArray) :
  QBA.split LF data = line0 :: hdrLines ->
  Forall (fun l => ~ blank l) hdrLines ->
  exists request,
    parseHttpRequest data = Some request
    /\ (forall key, QMap.lookup key (headers request) = lastValue key hdrLines None)
    /\ body request = QBA.join LF hdrLines.
Proof.
  intros Hsplit Hrun.
  destruct (parseHttpRequest_no_blank_line data line0 hdrLines Hsplit Hrun)
    as (request & Hparse & Hheaders & Hbody).
  exists request. split; [exact Hparse|]. split; [|exact Hbody].
  intros key. rewrite Hheaders. apply lookup_headersOf.
Qed.

End OpenHeaderBlock.

Lemma open_header_block_is_body_too_witness :
  exists r,
    @parseHttpRequest Doubles.plainText ("GET / HTTP/1.1" ++ String LF "Host: x")
    = Some r
    /\ QMap.lookup "Host" (headers r) = Some "x"
    /\ body r = "Host: x".
Proof.
  destruct (@open_header_block_is_body_too Doubles.plainText
              ("GET / HTTP/1.1" ++ String LF "Host: x") "GET / HTTP/1.1" ["Host: x"])
    as (r & Hparse & Hlookup & Hbody).
  - reflexivity.
  - repeat constructor; unfold blank; simpl; discriminate.
  - exists r. split; [exact Hparse|]. split; [exact (Hlookup "Host") | exact Hbody].
Defined.
